(** * The upload-to-RPC bridge of lbrytv: [app/publish/publish.go]

    A shallow embedding of [Handler.Handle], [getCaller], [Handler.CanHandle],
    [Handler.saveFile] and [Handler.createFile], together with the parts of
    their surroundings (the Go runtime's file and path functions, the
    multipart form of [net/http], the RPC calling subsystem) that these five
    functions rely on.

    Go functions that perform effects are written in a small monad [Fn]
    which threads the state of the world, supports [return] from the middle
    of a body and keeps the stack of deferred closures of the running
    function.  Everything the process cannot decide on its own (whether a
    system call fails, which random string the runtime draws, what the
    downstream backend answers) is read from a [World]. *)

From Stdlib Require Import Ascii String.
From stdpp Require Import base strings gmap list pretty.

Local Open Scope string_scope.
Local Open Scope Z_scope.

(** ** Go errors *)

(** The sentinel errors the handler can tell apart, and every other error
    carried by its message. *)
Inductive error : Type :=
  | ErrMissingFile                (* http.ErrMissingFile *)
  | ErrNotMultipart               (* http.ErrNotMultipart *)
  | ErrExist                      (* an error for which os.IsExist holds *)
  | Err (msg : string).           (* errors.Err(msg) and all other errors *)

#[global] Instance error_eq_dec : EqDecision error.
Proof. solve_decision. Defined.

(** Modelled from the spec: package [internal/errors] is missing; its [Is]
    is taken to be the comparison of a possibly nil [err] with a sentinel,
    which is what tells "no file part" from every other outcome. *)
Definition errors_Is (err : option error) (target : error) : bool :=
  match err with
  | Some e => bool_decide (e = target)
  | None => false
  end.

(** ** Paths: [path.Join], [path.Clean], [path.Dir] *)

Module path.

Definition slash : ascii := "/"%char.

(** The elements of a path between its slashes; ["a//b"] has an empty
    element in the middle, ["/a"] an empty first element. *)
Fixpoint split (s : string) : list string :=
  match s with
  | EmptyString => [EmptyString]
  | String a rest =>
      if decide (a = slash) then EmptyString :: split rest
      else match split rest with
           | x :: xs => String a x :: xs
           | [] => [String a EmptyString]
           end
  end.

Fixpoint join (elems : list string) : string :=
  match elems with
  | [] => ""
  | [x] => x
  | x :: xs => x +:+ "/" +:+ join xs
  end.

Definition rooted (p : string) : bool :=
  match p with
  | String a _ => bool_decide (a = slash)
  | EmptyString => false
  end.

(** The rules of [Clean]: drop empty and ["."] elements; an inner [".."]
    removes the element before it; a [".."] at the start of a rooted path
    is dropped, at the start of a relative path it is kept.  [out] is the
    cleaned part, last element first. *)
Fixpoint clean_go (root : bool) (out : list string) (elems : list string)
  : list string :=
  match elems with
  | [] => reverse out
  | c :: cs =>
      if decide (c = "" ∨ c = ".") then clean_go root out cs
      else if decide (c = "..") then
        match out with
        | top :: out' =>
            if decide (top = "..") then clean_go root (".." :: out) cs
            else clean_go root out' cs
        | [] =>
            if root then clean_go root [] cs else clean_go root [".."] cs
        end
      else clean_go root (c :: out) cs
  end.

Definition Clean (p : string) : string :=
  let out := clean_go (rooted p) [] (split p) in
  if rooted p then "/" +:+ join out
  else match out with
       | [] => "."
       | _ => join out
       end.

(** [Join] ignores empty elements and cleans the result; with no
    non-empty element it returns the empty string. *)
Definition Join (elems : list string) : string :=
  match filter (λ e, e ≠ "") elems with
  | [] => ""
  | es => Clean (join es)
  end.

(** [Dir]: everything up to the final slash, cleaned. *)
Definition Dir (p : string) : string :=
  match split p with
  | [] | [_] => "."
  | elems => Clean (join (removelast elems) +:+ "/")
  end.

(** A directory and the directories above it, the way [os.MkdirAll]
    walks them. *)
Fixpoint ancestors_go (root : bool) (seen : list string) (elems : list string)
  : list string :=
  match elems with
  | [] => []
  | c :: cs =>
      let here := (seen ++ [c])%list in
      ((if root then "/" else "") +:+ join here) :: ancestors_go root here cs
  end.

Definition ancestors (p : string) : list string :=
  let q := Clean p in
  ancestors_go (rooted q) [] (clean_go (rooted q) [] (split q)).

End path.

(** ** [net/http]: the request and its forms *)

Module http.

(** One file part of a parsed multipart form.  [OpenErr] is the message
    of the error [FileHeader.Open] fails with, if it does. *)
Record FileHeader : Type := {
  Filename : string;
  Content : string;
  OpenErr : option string;
}.

(** What [ParseMultipartForm] makes of the body. *)
Inductive Multipart : Type :=
  | NotMultipart
  | Malformed (msg : string)
  | Parsed (File : gmap string (list FileHeader)).

Record Request : Type := {
  Header : gmap string (list string);
  Form : gmap string (list string);       (* URL query and body values *)
  MultipartForm : Multipart;
}.

(** [r.FormFile(key)]: the opened first file under [key], its header and
    an error.  A body that is not a multipart form gives the parser's
    error; a parsed form without a file under [key] gives
    [ErrMissingFile]. *)
Definition FormFile (r : Request) (key : string)
  : option string * option FileHeader * option error :=
  match MultipartForm r with
  | NotMultipart => (None, None, Some ErrNotMultipart)
  | Malformed msg => (None, None, Some (Err msg))
  | Parsed File =>
      match File !! key with
      | Some (fh :: _) =>
          match OpenErr fh with
          | Some msg => (None, Some fh, Some (Err msg))
          | None => (Some (Content fh), Some fh, None)
          end
      | _ => (None, None, Some ErrMissingFile)
      end
  end.

(** [r.FormValue(key)]: the first value under [key], or the empty
    string. *)
Definition FormValue (r : Request) (key : string) : string :=
  match Form r !! key with
  | Some (v :: _) => v
  | _ => ""
  end.

(** The body was parsed as a multipart form. *)
Definition parsed (r : Request) : Prop :=
  ∃ File, MultipartForm r = Parsed File.

(** The request carries a file part under [key]. *)
Definition has_file_part (r : Request) (key : string) : Prop :=
  ∃ File fh rest, MultipartForm r = Parsed File ∧ File !! key = Some (fh :: rest).

End http.

(** ** [jsonrpc]: requests and responses *)

Module jsonrpc.

Inductive value : Type :=
  | VString (s : string)
  | VNumber (n : Z)
  | VBool (b : bool)
  | VNull
  | VRaw (json : string).          (* nested arrays and objects, as text *)

Record RPCRequest : Type := {
  Method : string;
  Params : gmap string value;
  ID : Z;
}.

Record RPCResponse : Type := {
  Result : string;
  Error : option string;
  RespID : Z;
}.

End jsonrpc.

(** ** Collaborators outside the package *)

Module models.
(** Modelled from the spec: [models.User] is missing; a principal carries
    an identifier and a backend address (empty when none is assigned). *)
Record User : Type := { ID : Z; LbrynetServer : string }.
End models.

Module cache.
(** Modelled from the spec: [cache.QueryCache] is missing; the cache is
    opaque to the package and only passed through. *)
Record QueryCache : Type := { handle : nat }.
End cache.

Module rpcerrors.
(** Modelled from the spec: package [rpcerrors] is missing; every error is
    turned into a JSON-RPC shaped body.  A body is kept symbolic: which
    constructor built it, and from which error. *)
Inductive Body : Type :=
  | ErrorToJSON (err : error)            (* rpcerrors.ErrorToJSON(err) *)
  | ToJSON (err : error)                 (* rpcerrors.ToJSON(err) *)
  | InternalErrorJSON (err : error)      (* NewInternalError(err).JSON() *)
  | JSONParseErrorJSON (err : error)     (* NewJSONParseError(err).JSON() *)
  | Serialized (bytes : string).         (* a serialized RPC response *)

Definition internal_error_shape (b : Body) : Prop :=
  ∃ err, b = InternalErrorJSON err.
End rpcerrors.

(** ** The world *)

(** Arguments of log lines and of reports to the error tracker. *)
Inductive fmt_arg : Type :=
  | AString (s : string)
  | AInt (n : Z)
  | AError (e : error)
  | ARequest (req : jsonrpc.RPCRequest)
  | AResponse (res : option jsonrpc.RPCResponse).

Inductive level : Type := Info | Error.

(** What the process does to its surroundings, in the order it does it. *)
Inductive Event : Type :=
  | EvMkdirAll (path : string)                       (* os.MkdirAll *)
  | EvOpenFile (name : string)                       (* os.OpenFile, exclusive create *)
  | EvCopy (name : string)                           (* io.Copy into the file *)
  | EvClose (name : string)                          (* File.Close on an os.File *)
  | EvPartClose                                      (* multipart.File.Close *)
  | EvRemove (name : string)                         (* os.Remove *)
  | EvWrite (body : rpcerrors.Body)                  (* w.Write *)
  | EvLog (fields : list (string * fmt_arg)) (lvl : level)
          (format : string) (args : list fmt_arg)    (* logger *)
  | EvSentry (err : error) (extra : list (string * fmt_arg))
                                                     (* monitor.ErrorToSentry *)
  | EvDispatch (endpoint : string) (userID : Z)
               (qCache : option cache.QueryCache)
               (req : jsonrpc.RPCRequest).           (* the call sent downstream *)

(** Everything decided outside the process. *)
Record World : Type := {
  auth_FromRequest : http.Request → option models.User * option error;
  cache_IsOnRequest : http.Request → bool;
  cache_FromRequest : http.Request → option cache.QueryCache;
  json_Unmarshal : string → jsonrpc.RPCRequest + error;
  backend : string → Z → option cache.QueryCache → jsonrpc.RPCRequest →
            option jsonrpc.RPCResponse * option error;
  responses_JSONRPCSerialize : option jsonrpc.RPCResponse → string * option error;
  TempDir : string;
  nextRandom : nat → string;              (* the runtime's random strings *)
  MkdirAll_fault : string → option error;
  OpenFile_fault : string → option error;
  Copy_fault : string → option (nat * error);   (* bytes written before failing *)
  Close_fault : string → option error;
  Remove_fault : string → option error;
}.

(** The state the handler acts on: the file system, the position in the
    stream of random strings, and the events so far. *)
Record St : Type := mkSt {
  dirs : gset string;
  files : gmap string string;
  rng : nat;
  trace : list Event;
}.

Definition emit (e : Event) (s : St) : St :=
  mkSt (dirs s) (files s) (rng s) (trace s ++ [e])%list.
Definition set_files (fs : gmap string string) (s : St) : St :=
  mkSt (dirs s) fs (rng s) (trace s).
Definition add_dir (d : string) (s : St) : St :=
  mkSt ({[d]} ∪ dirs s) (files s) (rng s) (trace s).
Definition next_rng (s : St) : St :=
  mkSt (dirs s) (files s) (S (rng s)) (trace s).

(** ** Go function bodies *)

(** A statement either falls through with a value or returns from the
    enclosing function. *)
Inductive outcome (R A : Type) : Type :=
  | Next (a : A)
  | Return (r : R).
Arguments Next {R A} a.
Arguments Return {R A} r.

(** A piece of the body of a function with results [R]: it acts on the state
    and on the function's stack of deferred closures (last deferred
    first). *)
Definition Fn (R A : Type) : Type :=
  St → list (St → St) → outcome R A * St * list (St → St).

#[global] Instance Fn_ret R : MRet (Fn R) :=
  λ A a s ds, (Next a, s, ds).
#[global] Instance Fn_bind R : MBind (Fn R) :=
  λ A B f m s ds,
    match m s ds with
    | (Next a, s', ds') => f a s' ds'
    | (Return r, s', ds') => (Return r, s', ds')
    end.

Definition return_ {R A} (r : R) : Fn R A := λ s ds, (Return r, s, ds).

(** A primitive that only acts on the state. *)
Definition prim {R A} (f : St → A * St) : Fn R A :=
  λ s ds, let '(a, s') := f s in (Next a, s', ds).

Definition run_deferred (ds : list (St → St)) (s : St) : St :=
  foldl (λ s d, d s) s ds.

(** Running a whole body: its result, and the state once the deferred
    closures have run. *)
Definition finish {R} (end_ : outcome R R * St * list (St → St)) : R * St :=
  match end_ with
  | (Next r, s', ds) | (Return r, s', ds) => (r, run_deferred ds s')
  end.

Definition run {R} (body : Fn R R) (s : St) : R * St :=
  finish (body s []).

(** [defer func() { body }()] *)
Definition defer {R} (body : Fn unit unit) : Fn R unit :=
  λ s ds, (Next (), s, (λ s', (run body s').2) :: ds).

(** A call of another function of the program. *)
Definition call {R R'} (body : Fn R' R') : Fn R R' :=
  prim (run body).

Definition event {R} (e : Event) : Fn R unit :=
  prim (λ s, ((), emit e s)).

(** ** [os], [io], [io/ioutil] *)

(** An [*os.File]: the handle keeps the name it was opened under. *)
Record File : Type := { Name : string }.

Definition dir_exists (d : string) (s : St) : Prop :=
  d = "/" ∨ d = "." ∨ d ∈ dirs s.

#[global] Instance dir_exists_dec d s : Decision (dir_exists d s).
Proof. unfold dir_exists. apply _. Defined.

Section runtime.
Context (W : World).

(** Creating the directories of [ds] from the top down; a file in the way
    stops the walk. *)
Fixpoint mkdirs (ds : list string) (s : St) : option error * St :=
  match ds with
  | [] => (None, s)
  | d :: rest =>
      match files s !! d with
      | Some _ => (Some (Err "not a directory"), s)
      | None => mkdirs rest (add_dir d s)
      end
  end.

(** [os.MkdirAll(path, perm)] *)
Definition os_MkdirAll (p : string) (s : St) : option error * St :=
  let s := emit (EvMkdirAll p) s in
  match MkdirAll_fault W p with
  | Some e => (Some e, s)
  | None => mkdirs (path.ancestors p) s
  end.

(** [os.OpenFile(name, O_RDWR|O_CREATE|O_EXCL, 0600)]: fails with an
    [IsExist] error when the name is taken and with another error when its
    directory is missing; creates the empty file otherwise. *)
Definition os_OpenFile_excl (name : string) (s : St)
  : (option File * option error) * St :=
  let s := emit (EvOpenFile name) s in
  if decide (is_Some (files s !! name) ∨ name ∈ dirs s)
  then ((None, Some ErrExist), s)
  else match OpenFile_fault W name with
       | Some e => ((None, Some e), s)
       | None =>
           if decide (dir_exists (path.Dir name) s)
           then ((Some {| Name := name |}, None),
                 set_files (<[name := ""]> (files s)) s)
           else ((None, Some (Err "no such file or directory")), s)
       end.

(** [f.Close()] *)
Definition File_Close (f : File) (s : St) : option error * St :=
  (Close_fault W (Name f), emit (EvClose (Name f)) s).

(** [os.Remove(name)] of a file.  (Removing directories is left out: the
    handler only removes what [ioutil.TempFile] gave it.) *)
Definition os_Remove (name : string) (s : St) : option error * St :=
  let s := emit (EvRemove name) s in
  match Remove_fault W name with
  | Some e => (Some e, s)
  | None =>
      match files s !! name with
      | Some _ => (None, set_files (delete name (files s)) s)
      | None => (Some (Err "no such file or directory"), s)
      end
  end.

(** [io.Copy(f, src)]: the bytes written and an error; a failing copy
    leaves the bytes written so far in the file. *)
Definition io_Copy (f : File) (src : string) (s : St)
  : (Z * option error) * St :=
  let s := emit (EvCopy (Name f)) s in
  match Copy_fault W (Name f) with
  | Some (n, e) =>
      let written := String.substring 0 n src in
      ((Z.of_nat (String.length written), Some e),
       set_files (<[Name f := written]> (files s)) s)
  | None =>
      ((Z.of_nat (String.length src), None),
       set_files (<[Name f := src]> (files s)) s)
  end.

(** [prefixAndSuffix] of [ioutil]: the pattern is split at its last
    ["*"]; without one the whole pattern is the prefix. *)
Fixpoint split_last_star (s : string) : option (string * string) :=
  match s with
  | EmptyString => None
  | String a rest =>
      match split_last_star rest with
      | Some (p, q) => Some (String a p, q)
      | None => if decide (a = "*"%char) then Some ("", rest) else None
      end
  end.

Definition prefixAndSuffix (pattern : string) : string * string :=
  match split_last_star pattern with
  | Some pq => pq
  | None => (pattern, "")
  end.

(** The loop of [ioutil.TempFile]: draw a random string, try to create
    [dir/prefix<random>suffix] exclusively, and try again while the name
    is taken; [n] is the number of tries left. *)
Fixpoint TempFile_loop (n : nat) (dir prefix suffix : string) (s : St)
  : (option File * option error) * St :=
  match n with
  | O => ((None, Some ErrExist), s)
  | S n' =>
      let name := path.Join [dir; prefix +:+ nextRandom W (rng s) +:+ suffix] in
      let '(res, s') := os_OpenFile_excl name (next_rng s) in
      match res with
      | (_, Some ErrExist) => TempFile_loop n' dir prefix suffix s'
      | _ => (res, s')
      end
  end.

Definition TempFile_tries : nat := Z.to_nat 10000.

Fixpoint has_separator (s : string) : bool :=
  match s with
  | EmptyString => false
  | String a rest => bool_decide (a = path.slash) || has_separator rest
  end.

(** [ioutil.TempFile(dir, pattern)]; a pattern with a path separator is
    refused. *)
Definition ioutil_TempFile (dir pattern : string) (s : St)
  : (option File * option error) * St :=
  let dir := if decide (dir = "") then TempDir W else dir in
  if has_separator pattern
  then ((None, Some (Err "pattern contains path separator")), s)
  else
    let '(prefix, suffix) := prefixAndSuffix pattern in
    TempFile_loop TempFile_tries dir prefix suffix s.

End runtime.

(** ** [auth], [proxy], [responses], [query] *)

Module auth.
(** Modelled from the spec: [auth.SDKAddress] is missing; it is the
    backend address assigned to the principal. *)
Definition SDKAddress (user : models.User) : string :=
  models.LbrynetServer user.
End auth.

Module proxy.
(** Modelled from the spec: [proxy.GetAuthError] is missing; an
    authentication error, or the absence of a principal, is an error, and
    nothing else is. *)
Definition GetAuthError (user : option models.User) (err : option error)
  : option error :=
  match err, user with
  | None, Some _ => None
  | Some e, _ => Some e
  | None, None => Some (Err "must authenticate")
  end.
End proxy.

Module query.

(** Modelled from the spec: package [query] is missing.  A call is a
    structured request, a method name and a parameter mapping, on its way
    to the backend. *)
Record Query : Type := { Request : jsonrpc.RPCRequest }.

(** Modelled from the spec: [ParamsAsMap] is missing; it reads the call's
    current parameter mapping. *)
Definition ParamsAsMap (q : Query) : gmap string jsonrpc.value :=
  jsonrpc.Params (Request q).

(** [q.Request.Params = params]: the mapping is written back onto the
    call. *)
Definition set_Params (params : gmap string jsonrpc.value) (q : Query) : Query :=
  {| Request := {| jsonrpc.Method := jsonrpc.Method (Request q);
                   jsonrpc.Params := params;
                   jsonrpc.ID := jsonrpc.ID (Request q) |} |}.

(** Modelled from the spec: the type of hooks is missing.  A hook gets the
    query and gives back the query as it left it, and its response and
    error.  (In the source a hook is also handed the caller, which the hook
    of this package ignores.) *)
Definition Hook : Type :=
  Query → Query * (option jsonrpc.RPCResponse * option error).

(** Modelled from the spec: [query.Caller] is missing; a caller is bound
    to one backend and one principal, is tagged with a cache, and carries
    zero or more ordered pre-dispatch hooks. *)
Record Caller : Type := {
  endpoint : string;
  userID : Z;
  Cache : option cache.QueryCache;
  preflightHooks : list Hook;
}.

(** Modelled from the spec: [NewCaller] is missing; a new caller has no
    cache and no hook. *)
Definition NewCaller (endpoint : string) (userID : Z) : Caller :=
  {| endpoint := endpoint; userID := userID; Cache := None;
     preflightHooks := [] |}.

(** [c.Cache = qCache] *)
Definition set_Cache (qCache : option cache.QueryCache) (c : Caller) : Caller :=
  {| endpoint := endpoint c; userID := userID c; Cache := qCache;
     preflightHooks := preflightHooks c |}.

(** Modelled from the spec: [AddPreflightHook] is missing; the hook is
    registered after the ones already there. *)
Definition AddPreflightHook (hook : Hook) (c : Caller) : Caller :=
  {| endpoint := endpoint c; userID := userID c; Cache := Cache c;
     preflightHooks := (preflightHooks c ++ [hook])%list |}.

(** Modelled from the spec: the loop over the hooks is missing.  The hooks
    run in order; each either ends the dispatch with a response or an error
    of its own ([inr]), or changes the call and lets the dispatch go on. *)
Fixpoint run_hooks (hooks : list Hook) (q : Query)
  : Query + (option jsonrpc.RPCResponse * option error) :=
  match hooks with
  | [] => inl q
  | hook :: rest =>
      match hook q with
      | (q', (None, None)) => run_hooks rest q'
      | (_, answer) => inr answer
      end
  end.

Section call.
Context (W : World).

(** Modelled from the spec: [Caller.Call] is missing; the hooks run before
    the call is sent, and the backend's answer is the result. *)
Definition Call {R} (c : Caller) (req : jsonrpc.RPCRequest)
  : Fn R (option jsonrpc.RPCResponse * option error) :=
  match run_hooks (preflightHooks c) {| Request := req |} with
  | inr answer => mret answer
  | inl q =>
      event (EvDispatch (endpoint c) (userID c) (Cache c) (Request q));;
      mret (backend W (endpoint c) (userID c) (Cache c) (Request q))
  end.
End call.

End query.

(** ** Package [publish] *)

(** [fileFieldName] refers to the POST field containing file upload;
    [jsonRPCFieldName] is a name of the POST field containing JSONRPC
    request accompanying the uploaded file. *)
Definition fileFieldName : string := "file".
Definition jsonRPCFieldName : string := "json_payload".
Definition fileNameParam : string := "file_path".

(** Handler has path to save uploads to. *)
Record Handler : Type := { UploadPath : string }.

(** The results of [saveFile] and [createFile]: a handle and an error, each
    of which may be nil. *)
Abbreviation file_result := (option File * option error)%type.

Definition getCaller (sdkAddress filename : string) (userID : Z)
    (qCache : option cache.QueryCache) : query.Caller :=
  let c := query.NewCaller sdkAddress userID in
  let c := query.set_Cache qCache c in
  let c := query.AddPreflightHook (λ q,
             let params := query.ParamsAsMap q in
             let params := <[fileNameParam := jsonrpc.VString filename]> params in
             let q := query.set_Params params q in
             (q, (None, None))) c in
  c.

(** [CanHandle] checks if http.Request contains POSTed data in an accepted
    format. *)
Definition CanHandle (r : http.Request) : bool :=
  let '(_, _, err) := http.FormFile r fileFieldName in
  negb (errors_Is err ErrMissingFile)
  && bool_decide (http.FormValue r jsonRPCFieldName ≠ "").

Section publish.
Context (W : World) (h : Handler).

(** [createFile] opens an empty file for writing inside the account's
    designated folder. *)
Definition createFile (userID : Z) (origFilename : string)
  : Fn file_result file_result :=
  let dir := path.Join [UploadPath h; pretty userID] in
  err ← prim (os_MkdirAll W dir);
  match err with
  | Some err => return_ (None, Some err)
  | None =>
      res ← prim (ioutil_TempFile W dir ("*_" +:+ origFilename));
      return_ res
  end.

Definition saveFile (r : http.Request) (userID : Z)
  : Fn file_result file_result :=
  let log := [("user_id", AInt userID)] in
  match http.FormFile r fileFieldName with
  | (_, _, Some err) => return_ (None, Some err)
  | (None, _, None) | (_, None, None) =>
      (* not reached: without an error FormFile gives a file and a header *)
      return_ (None, None)
  | (Some file, Some header, None) =>
      defer (event EvPartClose);;
      '(f, err) ← call (createFile userID (http.Filename header));
      match err with
      | Some err => return_ (None, Some err)
      | None =>
          event (EvLog log Info "processing uploaded file %v"
                   [AString (http.Filename header)]);;
          match f with
          | None =>
              (* io.Copy into a nil file fails with os.ErrInvalid *)
              return_ (None, Some (Err "invalid argument"))
          | Some f =>
              '(numWritten, err) ← prim (io_Copy W f file);
              match err with
              | Some err => return_ (None, Some err)
              | None =>
                  event (EvLog log Info
                           "saved uploaded file %v (%v bytes written)"
                           [AString (Name f); AInt numWritten]);;
                  err ← prim (File_Close W f);
                  match err with
                  | Some err => return_ (None, Some err)
                  | None => return_ (Some f, None)
                  end
              end
          end
      end
  end.

(** The closure [Handle] defers once the upload is saved. *)
Definition cleanup (f : File) : Fn unit unit :=
  err ← prim (os_Remove W (Name f));
  match err with
  | Some err => event (EvSentry err [("file_path", AString (Name f))])
  | None => mret ()
  end.

(** [Handle] is where HTTP upload is handled and passed on to
    Publisher. *)
Definition Handle (r : http.Request) : Fn unit unit :=
  let '(user, err) := auth_FromRequest W r in
  match proxy.GetAuthError user err, user with
  | Some authErr, _ =>
      event (EvWrite (rpcerrors.ErrorToJSON authErr));;
      return_ ()
  | None, None =>
      (* not reached: without an auth error there is a user *)
      return_ ()
  | None, Some user =>
      if decide (auth.SDKAddress user = "") then
        event (EvWrite (rpcerrors.InternalErrorJSON
                          (Err "user does not have sdk address assigned")));;
        event (EvLog [] Error "user %d does not have sdk address assigned"
                 [AInt (models.ID user)]);;
        return_ ()
      else
        '(f, err) ← call (saveFile r (models.ID user));
        match err, f with
        | Some err, _ =>
            event (EvLog [] Error "%v" [AError err]);;
            event (EvSentry err []);;
            event (EvWrite (rpcerrors.InternalErrorJSON err));;
            return_ ()
        | None, None =>
            (* not reached: saveFile gives a handle or an error *)
            return_ ()
        | None, Some f =>
            defer (cleanup f);;
            let qCache := if cache_IsOnRequest W r
                          then cache_FromRequest W r else None in
            match json_Unmarshal W (http.FormValue r jsonRPCFieldName) with
            | inr err =>
                event (EvWrite (rpcerrors.JSONParseErrorJSON err));;
                return_ ()
            | inl rpcReq =>
                let c := getCaller (auth.SDKAddress user) (Name f)
                           (models.ID user) qCache in
                '(rpcRes, err) ← query.Call W c rpcReq;
                match err with
                | Some err =>
                    event (EvSentry err [("request", ARequest rpcReq);
                                         ("response", AResponse rpcRes)]);;
                    event (EvLog [] Error
                             "error calling lbrynet: %v, request: %+v"
                             [AError err; ARequest rpcReq]);;
                    event (EvWrite (rpcerrors.ToJSON err));;
                    return_ ()
                | None =>
                    let '(serialized, err) :=
                      responses_JSONRPCSerialize W rpcRes in
                    match err with
                    | Some err =>
                        event (EvSentry err []);;
                        event (EvLog [] Error "error marshaling response: %v"
                                 [AError err]);;
                        event (EvWrite (rpcerrors.InternalErrorJSON err));;
                        return_ ()
                    | None =>
                        event (EvWrite (rpcerrors.Serialized serialized))
                    end
                end
            end
        end
  end.

End publish.

(** ** Sample worlds and requests *)

Module sample.

Definition dq : string := String (ascii_of_nat 34) EmptyString.
Definition quoted (s : string) : string := dq +:+ s +:+ dq.

(** [{"method":"publish","params":{"name":"x"}}] *)
Definition payload : string :=
  "{" +:+ quoted "method" +:+ ":" +:+ quoted "publish" +:+ ","
      +:+ quoted "params" +:+ ":{" +:+ quoted "name" +:+ ":" +:+ quoted "x"
      +:+ "}}".

Definition publish_request : jsonrpc.RPCRequest :=
  {| jsonrpc.Method := "publish";
     jsonrpc.Params := {[ "name" := jsonrpc.VString "x" ]};
     jsonrpc.ID := 0 |}.

Definition user42 : models.User :=
  {| models.ID := 42; models.LbrynetServer := "http://sdk:5279" |}.
Definition user_without_sdk : models.User :=
  {| models.ID := 7; models.LbrynetServer := "" |}.

Definition ok_response : jsonrpc.RPCResponse :=
  {| jsonrpc.Result := "{}"; jsonrpc.Error := None; jsonrpc.RespID := 0 |}.

(** Requests are told apart by their [Authorization] header. *)
Definition token (r : http.Request) : string :=
  match http.Header r !! "Authorization" with
  | Some (t :: _) => t
  | _ => ""
  end.

(** A world in which nothing fails: the token ["t42"] belongs to user 42,
    ["t7"] to a user without a backend, every other token is refused; the
    runtime's random strings are [100000000], [100000001], ... *)
Definition world : World :=
  {| auth_FromRequest := λ r,
       if decide (token r = "t42") then (Some user42, None)
       else if decide (token r = "t7") then (Some user_without_sdk, None)
       else (None, Some (Err "authentication required"));
     cache_IsOnRequest := λ _, false;
     cache_FromRequest := λ _, None;
     json_Unmarshal := λ s,
       if decide (s = payload) then inl publish_request
       else inr (Err "invalid character");
     backend := λ _ _ _ _, (Some ok_response, None);
     responses_JSONRPCSerialize := λ _, ("{result}", None);
     TempDir := "/tmp";
     nextRandom := λ n, pretty (100000000 + N.of_nat n)%N;
     MkdirAll_fault := λ _, None;
     OpenFile_fault := λ _, None;
     Copy_fault := λ _, None;
     Close_fault := λ _, None;
     Remove_fault := λ _, None |}.

(** The same world with a disk that fills up after three bytes. *)
Definition world_disk_full : World :=
  {| auth_FromRequest := auth_FromRequest world;
     cache_IsOnRequest := cache_IsOnRequest world;
     cache_FromRequest := cache_FromRequest world;
     json_Unmarshal := json_Unmarshal world;
     backend := backend world;
     responses_JSONRPCSerialize := responses_JSONRPCSerialize world;
     TempDir := TempDir world;
     nextRandom := nextRandom world;
     MkdirAll_fault := MkdirAll_fault world;
     OpenFile_fault := OpenFile_fault world;
     Copy_fault := λ _, Some (3%nat, Err "no space left on device");
     Close_fault := Close_fault world;
     Remove_fault := Remove_fault world |}.

(** The same world with a runtime that draws the same random string
    again after a restart: every draw gives [123456789]. *)
Definition world_repeating_random : World :=
  {| auth_FromRequest := auth_FromRequest world;
     cache_IsOnRequest := cache_IsOnRequest world;
     cache_FromRequest := cache_FromRequest world;
     json_Unmarshal := json_Unmarshal world;
     backend := backend world;
     responses_JSONRPCSerialize := responses_JSONRPCSerialize world;
     TempDir := TempDir world;
     nextRandom := λ _, "123456789";
     MkdirAll_fault := MkdirAll_fault world;
     OpenFile_fault := OpenFile_fault world;
     Copy_fault := Copy_fault world;
     Close_fault := Close_fault world;
     Remove_fault := Remove_fault world |}.

(** The same world in which the removal of a file is refused. *)
Definition world_remove_refused : World :=
  {| auth_FromRequest := auth_FromRequest world;
     cache_IsOnRequest := cache_IsOnRequest world;
     cache_FromRequest := cache_FromRequest world;
     json_Unmarshal := json_Unmarshal world;
     backend := backend world;
     responses_JSONRPCSerialize := responses_JSONRPCSerialize world;
     TempDir := TempDir world;
     nextRandom := nextRandom world;
     MkdirAll_fault := MkdirAll_fault world;
     OpenFile_fault := OpenFile_fault world;
     Copy_fault := Copy_fault world;
     Close_fault := Close_fault world;
     Remove_fault := λ _, Some (Err "operation not permitted") |}.

Definition handler : Handler := {| UploadPath := "/uploads" |}.

Definition video : http.FileHeader :=
  {| http.Filename := "video.mp4"; http.Content := "0123456789";
     http.OpenErr := None |}.

Definition upload (tok body : string) : http.Request :=
  {| http.Header := {[ "Authorization" := [tok] ]};
     http.Form := {[ jsonRPCFieldName := [body] ]};
     http.MultipartForm := http.Parsed {[ fileFieldName := [video] ]} |}.

(** A POST with a url-encoded body: a [json_payload] value and no
    multipart form at all. *)
Definition urlencoded (tok body : string) : http.Request :=
  {| http.Header := {[ "Authorization" := [tok] ]};
     http.Form := {[ jsonRPCFieldName := [body] ]};
     http.MultipartForm := http.NotMultipart |}.

(** A multipart form with a [json_payload] value and no file part. *)
Definition without_file (tok body : string) : http.Request :=
  {| http.Header := {[ "Authorization" := [tok] ]};
     http.Form := {[ jsonRPCFieldName := [body] ]};
     http.MultipartForm := http.Parsed ∅ |}.

Definition empty_disk : St :=
  {| dirs := ∅; files := ∅; rng := 0; trace := [] |}.

End sample.

(** ** Observing a run *)

Local Open Scope list_scope.

(** The events that happened between two states of one run. *)
Definition events_of (s s' : St) : list Event :=
  drop (length (trace s)) (trace s').

(** The bodies written to the response writer. *)
Definition bodies (evs : list Event) : list rpcerrors.Body :=
  omap (λ e, match e with EvWrite b => Some b | _ => None end) evs.

(** The events of saving an upload: file system calls and log lines. *)
Definition upload_event (e : Event) : Prop :=
  match e with
  | EvMkdirAll _ | EvOpenFile _ | EvCopy _ | EvClose _ | EvPartClose
  | EvLog _ _ _ _ => True
  | _ => False
  end.

Definition emit_all (evs : list Event) (s : St) : St :=
  mkSt (dirs s) (files s) (rng s) (trace s ++ evs).

(** The client's request with the reserved parameter set to [name]. *)
Definition with_file_path (name : string) (req : jsonrpc.RPCRequest)
  : jsonrpc.RPCRequest :=
  {| jsonrpc.Method := jsonrpc.Method req;
     jsonrpc.Params :=
       <[fileNameParam := jsonrpc.VString name]> (jsonrpc.Params req);
     jsonrpc.ID := jsonrpc.ID req |}.

Section exits.
Context (W : World) (h : Handler) (r : http.Request).

Definition qCache_of : option cache.QueryCache :=
  if cache_IsOnRequest W r then cache_FromRequest W r else None.

(** The four ways [Handle] ends once the upload of [user] is saved in
    [f], each with the events it leaves before the deferred removal. *)
Inductive exit_path (user : models.User) (f : File) : list Event → Prop :=
  | parse_failure err :
      json_Unmarshal W (http.FormValue r jsonRPCFieldName) = inr err →
      exit_path user f [EvWrite (rpcerrors.JSONParseErrorJSON err)]
  | dispatch_failure req res err :
      json_Unmarshal W (http.FormValue r jsonRPCFieldName) = inl req →
      backend W (auth.SDKAddress user) (models.ID user) qCache_of
        (with_file_path (Name f) req) = (res, Some err) →
      exit_path user f
        [EvDispatch (auth.SDKAddress user) (models.ID user) qCache_of
           (with_file_path (Name f) req);
         EvSentry err [("request", ARequest req); ("response", AResponse res)];
         EvLog [] Error "error calling lbrynet: %v, request: %+v"
           [AError err; ARequest req];
         EvWrite (rpcerrors.ToJSON err)]
  | serialization_failure req res bytes err :
      json_Unmarshal W (http.FormValue r jsonRPCFieldName) = inl req →
      backend W (auth.SDKAddress user) (models.ID user) qCache_of
        (with_file_path (Name f) req) = (res, None) →
      responses_JSONRPCSerialize W res = (bytes, Some err) →
      exit_path user f
        [EvDispatch (auth.SDKAddress user) (models.ID user) qCache_of
           (with_file_path (Name f) req);
         EvSentry err [];
         EvLog [] Error "error marshaling response: %v" [AError err];
         EvWrite (rpcerrors.InternalErrorJSON err)]
  | success req res bytes :
      json_Unmarshal W (http.FormValue r jsonRPCFieldName) = inl req →
      backend W (auth.SDKAddress user) (models.ID user) qCache_of
        (with_file_path (Name f) req) = (res, None) →
      responses_JSONRPCSerialize W res = (bytes, None) →
      exit_path user f
        [EvDispatch (auth.SDKAddress user) (models.ID user) qCache_of
           (with_file_path (Name f) req);
         EvWrite (rpcerrors.Serialized bytes)].

(** What [Handle] makes of a state: the request is refused, the upload
    fails, or the upload is saved, answered and removed. *)
Inductive handled (s : St) : St → Prop :=
  | auth_refused user err authErr :
      auth_FromRequest W r = (user, err) →
      proxy.GetAuthError user err = Some authErr →
      handled s (emit_all [EvWrite (rpcerrors.ErrorToJSON authErr)] s)
  | no_backend user :
      auth_FromRequest W r = (Some user, None) →
      auth.SDKAddress user = "" →
      handled s
        (emit_all
           [EvWrite (rpcerrors.InternalErrorJSON
                       (Err "user does not have sdk address assigned"));
            EvLog [] Error "user %d does not have sdk address assigned"
              [AInt (models.ID user)]] s)
  | upload_failed user err s1 :
      auth_FromRequest W r = (Some user, None) →
      auth.SDKAddress user ≠ "" →
      run (saveFile W h r (models.ID user)) s = ((None, Some err), s1) →
      handled s
        (emit_all
           [EvLog [] Error "%v" [AError err];
            EvSentry err [];
            EvWrite (rpcerrors.InternalErrorJSON err)] s1)
  | answered user f s1 mid :
      auth_FromRequest W r = (Some user, None) →
      auth.SDKAddress user ≠ "" →
      run (saveFile W h r (models.ID user)) s = ((Some f, None), s1) →
      exit_path user f mid →
      handled s (run (cleanup W f) (emit_all mid s1)).2.

End exits.

(** ** Further observations *)

(** The file name carries a star. *)
Fixpoint has_star (s : string) : bool :=
  match s with
  | EmptyString => false
  | String a rest => bool_decide (a = "*"%char) || has_star rest
  end.

(** The calls sent downstream, and the names handed to [os.Remove]. *)
Definition dispatches (evs : list Event)
  : list (string * Z * option cache.QueryCache * jsonrpc.RPCRequest) :=
  omap (λ e, match e with
             | EvDispatch a u c q => Some (a, u, c, q)
             | _ => None
             end) evs.

Definition removals (evs : list Event) : list string :=
  omap (λ e, match e with EvRemove name => Some name | _ => None end) evs.

Section saving.
Context (W : World) (h : Handler) (r : http.Request) (userID : Z).

(** The two log lines of [saveFile]. *)
Definition log_processing (hd : http.FileHeader) : Event :=
  EvLog [("user_id", AInt userID)] Info "processing uploaded file %v"
    [AString (http.Filename hd)].

Definition log_saved (f : File) (numWritten : Z) : Event :=
  EvLog [("user_id", AInt userID)] Info
    "saved uploaded file %v (%v bytes written)"
    [AString (Name f); AInt numWritten].

(** The five ways [saveFile] ends, each with its results and the state it
    leaves. *)
Inductive saved (s : St) : file_result → St → Prop :=
  | no_part err :
      (http.FormFile r fileFieldName).2 = Some err →
      saved s (None, Some err) s
  | create_failed hd err s1 :
      http.FormFile r fileFieldName
      = (Some (http.Content hd), Some hd, None) →
      run (createFile W h userID (http.Filename hd)) s = ((None, Some err), s1) →
      saved s (None, Some err) (emit EvPartClose s1)
  | copy_failed hd f s1 n err :
      http.FormFile r fileFieldName
      = (Some (http.Content hd), Some hd, None) →
      run (createFile W h userID (http.Filename hd)) s = ((Some f, None), s1) →
      Copy_fault W (Name f) = Some (n, err) →
      saved s (None, Some err)
        (set_files
           (<[Name f := String.substring 0 n (http.Content hd)]> (files s1))
           (emit_all [log_processing hd; EvCopy (Name f); EvPartClose] s1))
  | close_failed hd f s1 err :
      http.FormFile r fileFieldName
      = (Some (http.Content hd), Some hd, None) →
      run (createFile W h userID (http.Filename hd)) s = ((Some f, None), s1) →
      Copy_fault W (Name f) = None →
      Close_fault W (Name f) = Some err →
      saved s (None, Some err)
        (set_files (<[Name f := http.Content hd]> (files s1))
           (emit_all
              [log_processing hd; EvCopy (Name f);
               log_saved f (Z.of_nat (String.length (http.Content hd)));
               EvClose (Name f); EvPartClose] s1))
  | save_ok hd f s1 :
      http.FormFile r fileFieldName
      = (Some (http.Content hd), Some hd, None) →
      run (createFile W h userID (http.Filename hd)) s = ((Some f, None), s1) →
      Copy_fault W (Name f) = None →
      Close_fault W (Name f) = None →
      saved s (Some f, None)
        (set_files (<[Name f := http.Content hd]> (files s1))
           (emit_all
              [log_processing hd; EvCopy (Name f);
               log_saved f (Z.of_nat (String.length (http.Content hd)));
               EvClose (Name f); EvPartClose] s1)).

End saving.

(** * Properties *)

(** ** The path functions on examples *)

Example Clean_examples :
  path.Clean "" = "." ∧ path.Clean "/" = "/" ∧ path.Clean "a/.." = "." ∧
  path.Clean "../a" = "../a" ∧ path.Clean "/../a" = "/a" ∧
  path.Clean "a/../../b" = "../b" ∧ path.Clean "/up//42/" = "/up/42" ∧
  path.Clean "a/./b/../c" = "a/c".
Proof. repeat split; vm_compute; reflexivity. Qed.

Example Join_examples :
  path.Join ["/up"; "42"] = "/up/42" ∧ path.Join [""; "42"] = "42" ∧
  path.Join ["/up/"; "/42"] = "/up/42" ∧ path.Join [""; ""] = "" ∧
  path.Dir "/up/42/x" = "/up/42" ∧ path.Dir "x" = "." ∧ path.Dir "/x" = "/" ∧
  path.ancestors "/up/42" = ["/up"; "/up/42"] ∧
  path.ancestors "up/42" = ["up"; "up/42"].
Proof. repeat split; vm_compute; reflexivity. Qed.

(** ** Running a body one statement at a time *)

Section steps.
Context {R A B : Type}.
Implicit Types (k : A → Fn R B) (s : St) (ds : list (St → St)).

Lemma step_prim (f : St → A * St) k s ds :
  (prim f ≫= k) s ds = k (f s).1 (f s).2 ds.
Proof. unfold mbind, Fn_bind, prim. by destruct (f s). Qed.

Lemma step_call (body : Fn A A) k s ds :
  (call body ≫= k) s ds = k (run body s).1 (run body s).2 ds.
Proof. unfold call. apply step_prim. Qed.

Lemma step_event (e : Event) (k : () → Fn R B) s ds :
  (event e ≫= k) s ds = k () (emit e s) ds.
Proof. reflexivity. Qed.

Lemma step_defer (body : Fn unit unit) (k : () → Fn R B) s ds :
  (defer body ≫= k) s ds = k () s ((λ s', (run body s').2) :: ds).
Proof. reflexivity. Qed.

Lemma step_ret (a : A) k s ds : (mret a ≫= k) s ds = k a s ds.
Proof. reflexivity. Qed.

Lemma step_return (r : R) k s ds :
  (return_ r ≫= k) s ds = (Return r, s, ds).
Proof. reflexivity. Qed.
End steps.

Lemma end_event {R} (e : Event) s ds :
  event (R := R) e s ds = (Next (), emit e s, ds).
Proof. reflexivity. Qed.

Lemma end_return {R A} (r : R) s ds :
  return_ (A := A) r s ds = (Return r, s, ds).
Proof. reflexivity. Qed.

Lemma end_ret {R A} (a : A) s ds :
  mret (M := Fn R) a s ds = (Next a, s, ds).
Proof. reflexivity. Qed.

Lemma end_prim {R A} (f : St → A * St) s ds :
  prim (R := R) f s ds = (Next (f s).1, (f s).2, ds).
Proof. unfold prim. by destruct (f s). Qed.

(** Open the run of a body in the goal. *)
Ltac run_body :=
  match goal with
  | |- context [run ?b ?s] => change (run b s) with (finish (b s []))
  end.

(** Execute the statements at the head of the body until a call or a
    primitive whose result is not known. *)
Ltac fn_steps :=
  repeat first
    [ rewrite step_event | rewrite step_defer | rewrite step_ret
    | rewrite step_return | rewrite step_call | rewrite step_prim
    | rewrite end_event | rewrite end_return | rewrite end_ret
    | rewrite end_prim ];
  cbv beta.


(** ** The request matcher *)

Lemma FormFile_missing r key :
  (http.FormFile r key).2 = Some ErrMissingFile ↔
  http.parsed r ∧ ¬ http.has_file_part r key.
Proof.
  unfold http.FormFile, http.parsed, http.has_file_part.
  destruct (http.MultipartForm r) as [|msg|File] eqn:HM; simpl.
  - split; [discriminate | intros [[? ?] _]; discriminate].
  - split; [discriminate | intros [[? ?] _]; discriminate].
  - destruct (File !! key) as [[|fh rest]|] eqn:HF; simpl.
    + split; [intros _ | done]. split; [by eexists |].
      intros (F & fh & rest & [= <-] & HF'). congruence.
    + split.
      * destruct (http.OpenErr fh); simpl; discriminate.
      * intros [_ Hno]. destruct Hno. by exists File, fh, rest.
    + split; [intros _ | done]. split; [by eexists |].
      intros (F & fh & rest & [= <-] & HF'). congruence.
Qed.

Lemma CanHandle_unfold r :
  CanHandle r =
  negb (errors_Is (http.FormFile r fileFieldName).2 ErrMissingFile)
  && bool_decide (http.FormValue r jsonRPCFieldName ≠ "").
Proof. unfold CanHandle. by destruct (http.FormFile r fileFieldName) as [[? ?] ?]. Qed.



(** ** The upload extractor *)

Section saveFile_results.
Context (W : World) (h : Handler).

Lemma saveFile_FormFile_error r userID s err :
  (http.FormFile r fileFieldName).2 = Some err →
  run (saveFile W h r userID) s = ((None, Some err), s).
Proof.
  unfold saveFile. destruct (http.FormFile r fileFieldName) as [[file hd] e].
  simpl. intros ->. by destruct file, hd.
Qed.

Lemma FormFile_no_file_part r key :
  ¬ http.has_file_part r key →
  ∃ err, (http.FormFile r key).2 = Some err ∧
         (http.parsed r → err = ErrMissingFile).
Proof.
  intros Hno. unfold http.FormFile, http.parsed.
  destruct (http.MultipartForm r) as [|msg|File] eqn:HM; simpl.
  - eexists. split; [done|]. intros [? ?]. discriminate.
  - eexists. split; [done|]. intros [? ?]. discriminate.
  - destruct (File !! key) as [[|fh rest]|] eqn:HF; simpl.
    + eexists. done.
    + destruct Hno. exists File, fh, rest. rewrite HM. done.
    + eexists. done.
Qed.

(** C7, as amended.  For a request without a file part under ["file"],
    [saveFile] returns a nil handle and the error of the form parser,
    which is the missing-file error whenever the body was parsed as a
    multipart form; it returns before [createFile] is called: the state
    is left as it was, so no directory is made and no file is opened. *)
Theorem saveFile_without_file_part (r : http.Request) (userID : Z) (s : St) :
  ¬ http.has_file_part r fileFieldName →
  ∃ err,
    run (saveFile W h r userID) s = ((None, Some err), s) ∧
    (http.FormFile r fileFieldName).2 = Some err ∧
    (http.parsed r → err = ErrMissingFile).
Proof.
  intros Hno. destruct (FormFile_no_file_part r fileFieldName Hno) as (err & He & Hp).
  exists err. split; [|done]. by apply saveFile_FormFile_error.
Qed.

End saveFile_results.

Lemma saveFile_without_file_part_witness :
  ∃ err,
    run (saveFile sample.world sample.handler
           (sample.without_file "t42" sample.payload) 42) sample.empty_disk
    = ((None, Some err), sample.empty_disk) ∧
    (http.FormFile (sample.without_file "t42" sample.payload) fileFieldName).2
    = Some err ∧
    (http.parsed (sample.without_file "t42" sample.payload) → err = ErrMissingFile).
Proof.
  apply (saveFile_without_file_part sample.world sample.handler).
  intros (File & fh & rest & HM & HF). injection HM as <-. discriminate HF.
Defined.

(** C7, as stated, fails: a request whose body is not a multipart form has
    no file part, and [saveFile] fails with the parser's not-multipart
    error, which is not the missing-file error. *)
Lemma saveFile_not_multipart :
  let r := sample.urlencoded "t42" sample.payload in
  ¬ http.has_file_part r fileFieldName ∧
  (run (saveFile sample.world sample.handler r 42) sample.empty_disk).1
  = (None, Some ErrNotMultipart) ∧
  ErrNotMultipart ≠ ErrMissingFile.
Proof.
  split; [|split].
  - intros (File & fh & rest & HM & _). discriminate HM.
  - reflexivity.
  - discriminate.
Qed.

(** ** The runtime *)

Lemma emit_as_emit_all e s : emit e s = emit_all [e] s.
Proof. reflexivity. Qed.

Lemma events_of_app s s' new : trace s' = trace s ++ new → events_of s s' = new.
Proof. unfold events_of. intros ->. by rewrite drop_app_length. Qed.

Section runtime_facts.
Context (W : World).

Lemma mkdirs_frame ds s :
  files (mkdirs ds s).2 = files s ∧ trace (mkdirs ds s).2 = trace s ∧
  rng (mkdirs ds s).2 = rng s.
Proof.
  revert s. induction ds as [|d ds IH]; intros s; simpl; [done|].
  destruct (files s !! d); simpl; [done|].
  destruct (IH (add_dir d s)) as (-> & -> & ->). done.
Qed.

Lemma os_MkdirAll_frame p s :
  files (os_MkdirAll W p s).2 = files s ∧
  trace (os_MkdirAll W p s).2 = trace s ++ [EvMkdirAll p].
Proof.
  unfold os_MkdirAll. destruct (MkdirAll_fault W p); simpl; [done|].
  destruct (mkdirs_frame (path.ancestors p) (emit (EvMkdirAll p) s))
    as (-> & -> & _). done.
Qed.

(** What an exclusive create does: the name was free and is now an empty
    file, or nothing has changed. *)
Lemma os_OpenFile_excl_spec name s :
  let '(res, s') := os_OpenFile_excl W name s in
  trace s' = trace s ++ [EvOpenFile name] ∧ dirs s' = dirs s ∧
  rng s' = rng s ∧
  ((∃ f, res = (Some f, None) ∧ Name f = name ∧ files s !! name = None ∧
         files s' = <[name := ""]> (files s)) ∨
   (∃ err, res = (None, Some err) ∧ files s' = files s)).
Proof.
  unfold os_OpenFile_excl. simpl.
  destruct (decide _) as [Hex|Hfree]; simpl.
  { repeat split; try done. right. by eexists. }
  destruct (OpenFile_fault W name); simpl.
  { repeat split; try done. right. by eexists. }
  destruct (decide _); simpl.
  - repeat split; try done. left. eexists. repeat split; try done.
    destruct (files s !! name) eqn:E; [|done].
    destruct Hfree. left. by eexists.
  - repeat split; try done. right. by eexists.
Qed.

(** The loop of [TempFile] only ever returns a name that was free. *)
Lemma TempFile_loop_spec n dir prefix suffix s :
  let '(res, s') := TempFile_loop W n dir prefix suffix s in
  (∃ new, trace s' = trace s ++ new ∧ Forall upload_event new) ∧
  dirs s' = dirs s ∧
  ((∃ f, res = (Some f, None) ∧ files s !! Name f = None ∧
         files s' = <[Name f := ""]> (files s)) ∨
   (∃ err, res = (None, Some err) ∧ files s' = files s)).
Proof.
  revert s. induction n as [|n IH]; intros s; simpl.
  { split; [exists []; by rewrite app_nil_r|]. split; [done|]. right. by eexists. }
  set (name := path.Join _).
  pose proof (os_OpenFile_excl_spec name (next_rng s)) as Ho.
  destruct (os_OpenFile_excl W name (next_rng s)) as [res s1].
  destruct Ho as (Ht & Hd & Hr & Hres). simpl in Ht, Hd, Hres.
  assert (Forall upload_event [EvOpenFile name]) as Hev by (repeat constructor).
  destruct Hres as [(f & -> & Hn & Hfree & Hfiles)|(err & -> & Hfiles)].
  - split; [by eexists|]. split; [done|]. left. exists f. by rewrite Hn.
  - destruct err; try (split; [by eexists|]; split; [done|]; right; by eexists).
    specialize (IH s1). destruct (TempFile_loop W n dir prefix suffix s1) as [res s2].
    destruct IH as ((new & Ht2 & Hnew) & Hd2 & Hres).
    split; [|split].
    + exists ([EvOpenFile name] ++ new). rewrite Ht2, Ht, <- app_assoc.
      split; [done|]. by apply Forall_app.
    + congruence.
    + rewrite <- Hfiles. done.
Qed.

(** The deferred closure of [Handle]: one call of [os.Remove]; the file
    is gone unless the call fails, and a failure is reported. *)
Lemma cleanup_spec f s :
  run (cleanup W f) s =
  ((), match Remove_fault W (Name f), files s !! Name f with
       | None, Some _ =>
           set_files (delete (Name f) (files s)) (emit (EvRemove (Name f)) s)
       | Some err, _ =>
           emit_all [EvRemove (Name f);
                     EvSentry err [("file_path", AString (Name f))]] s
       | None, None =>
           emit_all [EvRemove (Name f);
                     EvSentry (Err "no such file or directory")
                       [("file_path", AString (Name f))]] s
       end).
Proof.
  unfold cleanup. run_body. fn_steps. unfold os_Remove. simpl.
  destruct (Remove_fault W (Name f)); simpl.
  { fn_steps. unfold emit_all, emit. simpl. by rewrite <- app_assoc. }
  destruct (files s !! Name f); simpl; fn_steps; simpl; [done|].
  unfold emit_all, emit. simpl. by rewrite <- app_assoc.
Qed.

End runtime_facts.

(** ** [createFile] and [saveFile] *)

Section upload_facts.
Context (W : World) (h : Handler).

Lemma createFile_spec userID orig s :
  let '(res, s') := run (createFile W h userID orig) s in
  (∃ new, trace s' = trace s ++ new ∧ Forall upload_event new) ∧
  ((∃ f, res = (Some f, None) ∧ files s !! Name f = None ∧
         files s' = <[Name f := ""]> (files s)) ∨
   (∃ err, res = (None, Some err) ∧ files s' = files s)).
Proof.
  unfold createFile. set (dir := path.Join _). run_body. fn_steps.
  destruct (os_MkdirAll_frame W dir s) as (Hf & Ht).
  destruct (os_MkdirAll W dir s) as [[err|] s1]; cbn [fst snd] in *; fn_steps.
  { simpl. split; [|right; by eexists].
    exists [EvMkdirAll dir]. split; [done|]. by repeat constructor. }
  unfold ioutil_TempFile.
  destruct (has_separator _).
  { simpl. split; [|right; eexists; by rewrite <- Hf].
    exists [EvMkdirAll dir]. split; [done|]. by repeat constructor. }
  destruct (prefixAndSuffix _) as [prefix suffix].
  match goal with |- context [TempFile_loop W ?n ?d ?p ?q ?st] =>
    pose proof (TempFile_loop_spec W n d p q st) as Hl;
    destruct (TempFile_loop W n d p q st) as [res s2] end.
  cbn [fst snd]. simpl.
  destruct Hl as ((new & Ht2 & Hnew) & _ & Hres).
  split.
  - exists ([EvMkdirAll dir] ++ new). rewrite Ht2, Ht, <- app_assoc.
    split; [done|]. apply Forall_app. split; [by repeat constructor|done].
  - rewrite <- Hf. done.
Qed.

(** [saveFile] ends in one of two ways: with a handle, no error and the
    upload in the file of that name; or with an error and no handle. *)
Lemma saveFile_spec r userID s :
  let '(res, s') := run (saveFile W h r userID) s in
  (∃ new, trace s' = trace s ++ new ∧ Forall upload_event new) ∧
  ((∃ f hd, res = (Some f, None) ∧
            (http.FormFile r fileFieldName).1 = (Some (http.Content hd), Some hd) ∧
            files s !! Name f = None ∧
            files s' !! Name f = Some (http.Content hd)) ∨
   (∃ err, res = (None, Some err))).
Proof.
  unfold saveFile.
  destruct (http.FormFile r fileFieldName) as [[[file|] [hd|]] [e|]] eqn:HF;
    try (simpl; split; [exists []; by rewrite app_nil_r | right; by eexists]).
  2-4: exfalso; revert HF; unfold http.FormFile; repeat case_match; congruence.
  assert (file = http.Content hd) as ->.
  { revert HF. unfold http.FormFile. repeat case_match; congruence. }
  run_body. fn_steps.
  pose proof (createFile_spec userID (http.Filename hd) s) as Hc.
  destruct (run _ s) as [[f err] s1]. cbn [fst snd].
  destruct Hc as ((new & Ht & Hnew) & Hres).
  destruct err as [err|]; fn_steps.
  { simpl. split; [|right; by eexists].
    exists (new ++ [EvPartClose]). rewrite Ht, <- app_assoc. split; [done|].
    apply Forall_app. split; [done | by repeat constructor]. }
  destruct f as [f|]; fn_steps.
  2:{ simpl. split; [|right; by eexists].
      eexists (new ++ [_; EvPartClose]). rewrite Ht, <- !app_assoc.
      split; [done|]. apply Forall_app. split; [done | by repeat constructor]. }
  destruct Hres as [(f' & [= <-] & Hfree & Hfiles)|(? & [=] & _)].
  unfold io_Copy. simpl.
  destruct (Copy_fault W (Name f)) as [[n err]|]; cbn [fst snd]; fn_steps.
  { simpl. split; [|right; by eexists].
    eexists (new ++ [_; _; EvPartClose]). rewrite Ht, <- !app_assoc.
    split; [done|]. apply Forall_app. split; [done | by repeat constructor]. }
  unfold File_Close. simpl.
  destruct (Close_fault W (Name f)) as [err|]; simpl.
  { split; [|right; by eexists].
    eexists (new ++ [_; _; _; _; EvPartClose]). rewrite Ht, <- !app_assoc.
    split; [done|]. apply Forall_app. split; [done | by repeat constructor]. }
  split.
  { eexists (new ++ [_; _; _; _; EvPartClose]). rewrite Ht, <- !app_assoc.
    split; [done|]. apply Forall_app. split; [done | by repeat constructor]. }
  left. exists f, hd. repeat split; try done.
  by rewrite lookup_insert_eq.
Qed.

End upload_facts.

(** ** The call rewriter *)

Lemma getCaller_one_hook sdkAddress filename userID qCache :
  length (query.preflightHooks (getCaller sdkAddress filename userID qCache)) = 1%nat.
Proof. reflexivity. Qed.

(** A call built by [getCaller] always reaches the backend, and what it
    sends is the client's request with the reserved parameter set to the
    file name given to [getCaller]. *)
Lemma Call_getCaller {R} W sdkAddress filename userID qCache req s ds :
  query.Call (R := R) W (getCaller sdkAddress filename userID qCache) req s ds =
  (Next (backend W sdkAddress userID qCache (with_file_path filename req)),
   emit (EvDispatch sdkAddress userID qCache (with_file_path filename req)) s,
   ds).
Proof. reflexivity. Qed.

(** ** The bridge handler *)

Lemma emit_all_emit evs e s : emit_all evs (emit e s) = emit_all (e :: evs) s.
Proof. unfold emit_all, emit. simpl. by rewrite <- app_assoc. Qed.

Ltac collect_events := rewrite emit_as_emit_all, ?emit_all_emit.

Section handler_facts.
Context (W : World) (h : Handler).

Lemma GetAuthError_nil user err :
  proxy.GetAuthError user err = None ↔ (∃ u, user = Some u) ∧ err = None.
Proof.
  destruct user, err; simpl; split; try done; try (intros [[? ?] ?]; done).
  intros _. split; [by eexists|done].
Qed.

(** Every run of [Handle] is one of the four cases of [handled]. *)
Lemma Handle_handled r s :
  (run (Handle W h r) s).1 = () ∧ handled W h r s (run (Handle W h r) s).2.
Proof.
  split; [by destruct (run (Handle W h r) s).1|].
  unfold Handle.
  destruct (auth_FromRequest W r) as [user err] eqn:Hauth.
  destruct (proxy.GetAuthError user err) as [authErr|] eqn:Hget.
  { assert (run (event (EvWrite (rpcerrors.ErrorToJSON authErr));; return_ ()) s
            = ((), emit_all [EvWrite (rpcerrors.ErrorToJSON authErr)] s)) as Hrun
      by reflexivity.
    destruct user; rewrite Hrun; by eapply auth_refused. }
  apply GetAuthError_nil in Hget as [[u ->] ->].
  destruct (decide (auth.SDKAddress u = "")) as [Hsdk|Hsdk].
  { run_body. fn_steps. cbn [finish run_deferred foldl snd].
    collect_events. by apply no_backend. }
  run_body. fn_steps.
  pose proof (saveFile_spec W h r (models.ID u) s) as Hsave.
  destruct (run (saveFile W h r (models.ID u)) s) as [[f err] s1] eqn:Hrun.
  cbn [fst snd]. destruct Hsave as (_ & Hres).
  destruct Hres as [(f' & hd & [= -> ->] & _)|(e & [= -> ->])].
  2:{ fn_steps. cbn [finish run_deferred foldl snd]. collect_events.
      by eapply upload_failed. }
  fn_steps.
  assert (∀ mid, exit_path W r u f' mid →
            handled W h r s
              (finish (R := ()) (Return (), emit_all mid s1,
                                 [λ s', (run (cleanup W f') s').2])).2) as Hend.
  { intros mid Hexit. cbn [finish run_deferred foldl snd]. by eapply answered. }
  fold (qCache_of W r).
  destruct (json_Unmarshal W (http.FormValue r jsonRPCFieldName))
    as [req|perr] eqn:Hjson.
  2:{ fn_steps. collect_events.
      eapply Hend. by apply parse_failure. }
  unfold mbind at 1, Fn_bind at 1. rewrite Call_getCaller.
  destruct (backend W (auth.SDKAddress u) (models.ID u) (qCache_of W r)
              (with_file_path (Name f') req)) as [res [cerr|]] eqn:Hback.
  { fn_steps. collect_events.
    eapply Hend. by eapply dispatch_failure. }
  destruct (responses_JSONRPCSerialize W res) as [bytes [serr|]] eqn:Hser.
  { fn_steps. collect_events.
    eapply Hend. by eapply serialization_failure. }
  fn_steps. collect_events.
  eapply Hend. by eapply success.
Qed.

End handler_facts.

Section handler_claims.
Context (W : World) (h : Handler).


Lemma upload_events_no_dispatch evs a u c q :
  Forall upload_event evs → EvDispatch a u c q ∉ evs.
Proof.
  intros Hall Hin. rewrite Forall_forall in Hall. by apply Hall in Hin.
Qed.

(** The removal after a saved upload: [os.Remove] is the next call, and
    the file is gone unless the call fails. *)
Lemma cleanup_after_save f content mid s1 :
  files s1 !! Name f = Some content →
  ∃ tail,
    trace (run (cleanup W f) (emit_all mid s1)).2
    = trace s1 ++ mid ++ EvRemove (Name f) :: tail ∧
    dirs (run (cleanup W f) (emit_all mid s1)).2 = dirs s1 ∧
    match Remove_fault W (Name f) with
    | None =>
        tail = [] ∧
        files (run (cleanup W f) (emit_all mid s1)).2 = delete (Name f) (files s1)
    | Some err =>
        tail = [EvSentry err [("file_path", AString (Name f))]] ∧
        files (run (cleanup W f) (emit_all mid s1)).2 = files s1
    end.
Proof.
  intros Hfile. rewrite cleanup_spec. simpl. rewrite Hfile.
  destruct (Remove_fault W (Name f)) as [err|]; simpl.
  - eexists. rewrite <- app_assoc. done.
  - exists []. rewrite <- app_assoc. done.
Qed.

(** The events of a run of [Handle] that saves the upload. *)
Lemma answered_events r s user f s1 :
  auth_FromRequest W r = (Some user, None) →
  auth.SDKAddress user ≠ "" →
  run (saveFile W h r (models.ID user)) s = ((Some f, None), s1) →
  ∃ saving mid tail content,
    Forall upload_event saving ∧ trace s1 = trace s ++ saving ∧
    files s1 !! Name f = Some content ∧
    exit_path W r user f mid ∧
    trace (run (Handle W h r) s).2 = trace s1 ++ mid ++ EvRemove (Name f) :: tail ∧
    dirs (run (Handle W h r) s).2 = dirs s1 ∧
    match Remove_fault W (Name f) with
    | None =>
        tail = [] ∧ files (run (Handle W h r) s).2 = delete (Name f) (files s1)
    | Some err =>
        tail = [EvSentry err [("file_path", AString (Name f))]] ∧
        files (run (Handle W h r) s).2 = files s1
    end.
Proof.
  intros Hauth Hsdk Hsave.
  pose proof (saveFile_spec W h r (models.ID user) s) as Hspec.
  rewrite Hsave in Hspec.
  destruct Hspec as ((saving & Ht & Hup) & [(f' & hd & [= <-] & _ & _ & Hfile)|(? & [=])]).
  destruct (Handle_handled W h r s) as [_ Hh].
  set (s' := (run (Handle W h r) s).2) in *. clearbody s'.
  destruct Hh as [u e authErr Ha Hg|u Ha Hs|u e s1' Ha Hs Hr|u f' s1' mid Ha Hs Hr Hexit].
  - rewrite Hauth in Ha. injection Ha as <- <-. discriminate Hg.
  - rewrite Hauth in Ha. injection Ha as <-. done.
  - rewrite Hauth in Ha. injection Ha as <-. rewrite Hsave in Hr. discriminate Hr.
  - rewrite Hauth in Ha. injection Ha as <-. rewrite Hsave in Hr.
    injection Hr as <- <-.
    destruct (cleanup_after_save f _ mid s1 Hfile) as (tail & Htr & Hd & Hrm).
    exists saving, mid, tail, (http.Content hd). done.
Qed.

(** C1, as amended.  For every request in which [saveFile] returns
    successfully, [Handle] calls [os.Remove] on the scratch file as it
    returns, on each of its four exit paths (JSON-parse failure, dispatch
    failure, serialization failure, success) and after the response of
    that path is written: the removal is deferred right after [saveFile]
    succeeds, before the payload is parsed.  The file is gone when
    [Handle] returns unless [os.Remove] itself fails; such a failure is
    reported to the error tracker with the path of the file. *)
Theorem Handle_removes_saved_file (r : http.Request) (s : St)
    (user : models.User) (f : File) (s1 : St) :
  auth_FromRequest W r = (Some user, None) →
  auth.SDKAddress user ≠ "" →
  run (saveFile W h r (models.ID user)) s = ((Some f, None), s1) →
  ∃ mid tail,
    exit_path W r user f mid ∧
    trace (run (Handle W h r) s).2 = trace s1 ++ mid ++ EvRemove (Name f) :: tail ∧
    is_Some (files s1 !! Name f) ∧
    match Remove_fault W (Name f) with
    | None => tail = [] ∧ files (run (Handle W h r) s).2 !! Name f = None
    | Some err => tail = [EvSentry err [("file_path", AString (Name f))]]
    end.
Proof.
  intros Hauth Hsdk Hsave.
  destruct (answered_events r s user f s1 Hauth Hsdk Hsave)
    as (saving & mid & tail & content & _ & _ & Hfile & Hexit & Htr & _ & Hrm).
  exists mid, tail. repeat split; try done.
  destruct (Remove_fault W (Name f)); [by destruct Hrm|].
  destruct Hrm as [-> ->]. split; [done|]. apply lookup_delete_eq.
Qed.

(** C6.  For an authenticated principal whose backend address is the
    empty string, [Handle] writes the internal-error body, logs, and
    returns: these are its only two events, so [saveFile] is not invoked,
    and the directories and files are what they were. *)
Theorem Handle_without_backend (r : http.Request) (s : St) (user : models.User) :
  auth_FromRequest W r = (Some user, None) →
  auth.SDKAddress user = "" →
  events_of s (run (Handle W h r) s).2
  = [EvWrite (rpcerrors.InternalErrorJSON
                (Err "user does not have sdk address assigned"));
     EvLog [] Error "user %d does not have sdk address assigned"
       [AInt (models.ID user)]] ∧
  (∃ body, bodies (events_of s (run (Handle W h r) s).2) = [body] ∧
           rpcerrors.internal_error_shape body) ∧
  dirs (run (Handle W h r) s).2 = dirs s ∧
  files (run (Handle W h r) s).2 = files s.
Proof.
  intros Hauth Hsdk.
  destruct (Handle_handled W h r s) as [_ Hh].
  set (s' := (run (Handle W h r) s).2) in *. clearbody s'.
  destruct Hh as [u e authErr Ha Hg|u Ha Hs|u e s1' Ha Hs Hr|u f' s1' mid Ha Hs Hr Hexit].
  - rewrite Hauth in Ha. injection Ha as <- <-. discriminate Hg.
  - rewrite Hauth in Ha. injection Ha as <-.
    erewrite events_of_app by done.
    split; [done|]. split; [|done]. eexists. split; [done|]. by eexists.
  - rewrite Hauth in Ha. injection Ha as <-. done.
  - rewrite Hauth in Ha. injection Ha as <-. done.
Qed.

(** The events of every run of [Handle], case by case. *)
Lemma Handle_events r s :
  (∃ body, events_of s (run (Handle W h r) s).2 = [EvWrite body] ∧
           ∀ user, auth_FromRequest W r ≠ (Some user, None)) ∨
  (∃ body fields lvl format args user,
      events_of s (run (Handle W h r) s).2
      = [EvWrite body; EvLog fields lvl format args] ∧
      auth_FromRequest W r = (Some user, None) ∧ auth.SDKAddress user = "") ∨
  (∃ saving err user s1,
      Forall upload_event saving ∧
      auth_FromRequest W r = (Some user, None) ∧
      run (saveFile W h r (models.ID user)) s = ((None, Some err), s1) ∧
      events_of s (run (Handle W h r) s).2
      = saving ++ [EvLog [] Error "%v" [AError err]; EvSentry err [];
                   EvWrite (rpcerrors.InternalErrorJSON err)]) ∨
  (∃ saving mid tail user f s1,
      Forall upload_event saving ∧
      auth_FromRequest W r = (Some user, None) ∧
      auth.SDKAddress user ≠ "" ∧
      run (saveFile W h r (models.ID user)) s = ((Some f, None), s1) ∧
      exit_path W r user f mid ∧
      (tail = [] ∨ ∃ err extra, tail = [EvSentry err extra]) ∧
      events_of s (run (Handle W h r) s).2
      = saving ++ mid ++ EvRemove (Name f) :: tail).
Proof.
  destruct (Handle_handled W h r s) as [_ Hh].
  remember (run (Handle W h r) s).2 as s' eqn:Hs'.
  destruct Hh as [u e authErr Ha Hg|u Ha Hs|u e s1' Ha Hs Hr|u f' s1' mid Ha Hs Hr Hexit].
  - left. eexists. split; [by apply events_of_app|].
    intros user Hu. rewrite Hu in Ha. injection Ha as <- <-. discriminate Hg.
  - right; left. eexists _, _, _, _, _, u. split; [by apply events_of_app|done].
  - right; right; left.
    pose proof (saveFile_spec W h r (models.ID u) s) as Hspec.
    rewrite Hr in Hspec. destruct Hspec as ((saving & Ht & Hup) & _).
    exists saving, e, u, s1'. repeat split; try done.
    apply events_of_app. simpl. by rewrite Ht, <- app_assoc.
  - right; right; right.
    destruct (answered_events r s u f' s1' Ha Hs Hr)
      as (saving & mid' & tail & content & Hup & Ht & Hfile & _ & _ & _ & _).
    destruct (cleanup_after_save f' content mid s1' Hfile) as (tail' & Htr & _ & Hrm).
    exists saving, mid, tail', u, f', s1'. repeat split; try done.
    + destruct (Remove_fault W (Name f')); destruct Hrm as [-> _]; eauto.
    + apply events_of_app. rewrite Htr, Ht, <- !app_assoc. done.
Qed.

Lemma exit_path_dispatch r user f mid a u c q :
  exit_path W r user f mid →
  EvDispatch a u c q ∈ mid →
  ∃ client_req,
    json_Unmarshal W (http.FormValue r jsonRPCFieldName) = inl client_req ∧
    a = auth.SDKAddress user ∧ u = models.ID user ∧
    q = with_file_path (Name f) client_req.
Proof.
  intros Hexit Hin.
  destruct Hexit as [err Hj|req res err Hj Hb|req res b err Hj Hb Hs|req res b Hj Hb Hs];
    repeat (apply elem_of_cons in Hin as [Hin|Hin]; [try discriminate Hin|]);
    try (by apply elem_of_nil in Hin);
    injection Hin as -> -> -> ->; by exists req.
Qed.

(** C2.  Every call that [Handle] sends to the backend is the client's
    request with the parameter ["file_path"] set to the path of the
    scratch file that [saveFile] returned, whatever the client had put
    under that key; the hook that does it is the only one of the
    caller. *)
Theorem dispatch_carries_saved_path (r : http.Request) (s : St)
    (endpoint : string) (userID : Z) (qCache : option cache.QueryCache)
    (req : jsonrpc.RPCRequest) :
  EvDispatch endpoint userID qCache req ∈ events_of s (run (Handle W h r) s).2 →
  ∃ user f s1 client_req,
    auth_FromRequest W r = (Some user, None) ∧
    endpoint = auth.SDKAddress user ∧ userID = models.ID user ∧
    run (saveFile W h r (models.ID user)) s = ((Some f, None), s1) ∧
    json_Unmarshal W (http.FormValue r jsonRPCFieldName) = inl client_req ∧
    length (query.preflightHooks
              (getCaller endpoint (Name f) userID qCache)) = 1%nat ∧
    jsonrpc.Params req
    = <[fileNameParam := jsonrpc.VString (Name f)]> (jsonrpc.Params client_req) ∧
    jsonrpc.Params req !! "file_path" = Some (jsonrpc.VString (Name f)).
Proof.
  intros Hin.
  destruct (Handle_events r s)
    as [(b & He & _)|[(b & ? & ? & ? & ? & u & He & Ha & _)|[(saving & e & u & s1 & Hup & _ & _ & He)
       |(saving & mid & tail & u & f & s1 & Hup & Ha & Hs & Hr & Hexit & Htail & He)]]];
    rewrite He in Hin.
  - apply list_elem_of_singleton in Hin. discriminate Hin.
  - apply elem_of_cons in Hin as [Hin|Hin]; [discriminate Hin|].
    apply list_elem_of_singleton in Hin. discriminate Hin.
  - apply elem_of_app in Hin as [Hin|Hin];
      [by eapply upload_events_no_dispatch in Hin|].
    repeat (apply elem_of_cons in Hin as [Hin|Hin]; [discriminate Hin|]).
    by apply elem_of_nil in Hin.
  - apply elem_of_app in Hin as [Hin|Hin];
      [by eapply upload_events_no_dispatch in Hin|].
    apply elem_of_app in Hin as [Hin|Hin].
    + destruct (exit_path_dispatch r u f mid _ _ _ _ Hexit Hin)
        as (creq & Hj & -> & -> & ->).
      exists u, f, s1, creq. repeat split; try done.
      apply lookup_insert_eq.
    + apply elem_of_cons in Hin as [Hin|Hin]; [discriminate Hin|].
      destruct Htail as [->|(err & extra & ->)].
      * by apply elem_of_nil in Hin.
      * apply list_elem_of_singleton in Hin. discriminate Hin.
Qed.



(** When [saveFile] fails, [Handle] logs and reports the error, answers
    with the internal-error body and returns: nothing is removed, and the
    files are left as [saveFile] left them. *)
Lemma Handle_upload_failed r s user err s1 :
  auth_FromRequest W r = (Some user, None) →
  auth.SDKAddress user ≠ "" →
  run (saveFile W h r (models.ID user)) s = ((None, Some err), s1) →
  (run (Handle W h r) s).2
  = emit_all [EvLog [] Error "%v" [AError err]; EvSentry err [];
              EvWrite (rpcerrors.InternalErrorJSON err)] s1.
Proof.
  intros Hauth Hsdk Hsave.
  destruct (Handle_handled W h r s) as [_ Hh].
  set (s' := (run (Handle W h r) s).2) in *. clearbody s'.
  destruct Hh as [u e authErr Ha Hg|u Ha Hs|u e s1' Ha Hs Hr|u f' s1' mid Ha Hs Hr Hexit].
  - rewrite Hauth in Ha. injection Ha as <- <-. discriminate Hg.
  - rewrite Hauth in Ha. injection Ha as <-. done.
  - rewrite Hauth in Ha. injection Ha as <-. rewrite Hsave in Hr.
    by injection Hr as <- <-.
  - rewrite Hauth in Ha. injection Ha as <-. rewrite Hsave in Hr. discriminate Hr.
Qed.

(** C10.  The two results of [saveFile] exclude each other: with an
    error there is no handle, with a handle there is no error, and one of
    the two is always there. *)
Theorem saveFile_exclusive (r : http.Request) (userID : Z) (s : St) :
  let res := (run (saveFile W h r userID) s).1 in
  (res.2 ≠ None → res.1 = None) ∧
  (res.1 ≠ None → res.2 = None) ∧
  res ≠ (None, None).
Proof.
  pose proof (saveFile_spec W h r userID s) as Hspec.
  destruct (run (saveFile W h r userID) s) as [res s'].
  destruct Hspec as (_ & [(f & hd & -> & _)|(err & ->)]); simpl; done.
Qed.

(** C9, as amended.  The file of a successful [createFile] exists when it
    returns, and every successful [createFile] for the same principal and
    file name that starts while that file still exists returns another
    path: the file is created exclusively, so a name that is taken is
    never returned. *)
Theorem createFile_distinct_while_first_exists (userID : Z) (orig : string)
    (s : St) (f1 : File) (s1 : St) :
  run (createFile W h userID orig) s = ((Some f1, None), s1) →
  is_Some (files s1 !! Name f1) ∧
  ∀ s' f2 s2,
    is_Some (files s' !! Name f1) →
    run (createFile W h userID orig) s' = ((Some f2, None), s2) →
    Name f2 ≠ Name f1.
Proof.
  intros H1. pose proof (createFile_spec W h userID orig s) as Hspec.
  rewrite H1 in Hspec.
  destruct Hspec as (_ & [(f & [= <-] & _ & Hfiles)|(? & [=] & _)]).
  split; [rewrite Hfiles, lookup_insert_eq; by eexists|].
  intros s' f2 s2 [c Hex] H2 Heq.
  pose proof (createFile_spec W h userID orig s') as Hspec.
  rewrite H2 in Hspec.
  destruct Hspec as (_ & [(f & [= <-] & Hfree & _)|(? & [=] & _)]).
  rewrite Heq in Hfree. congruence.
Qed.

End handler_claims.

(** ** The claims at concrete requests *)

(** Principal 42 uploads [video.mp4] with the payload
    [{"method":"publish","params":{"name":"x"}}]: the call sent downstream
    has the parameters [name] and [file_path], the response mirrors the
    backend's, and the scratch file is absent afterwards. *)
Example publish_scenario :
  let s' := (run (Handle sample.world sample.handler
                    (sample.upload "t42" sample.payload)) sample.empty_disk).2 in
  trace s'
  = [EvMkdirAll "/uploads/42";
     EvOpenFile "/uploads/42/100000000_video.mp4";
     EvLog [("user_id", AInt 42)] Info "processing uploaded file %v"
       [AString "video.mp4"];
     EvCopy "/uploads/42/100000000_video.mp4";
     EvLog [("user_id", AInt 42)] Info
       "saved uploaded file %v (%v bytes written)"
       [AString "/uploads/42/100000000_video.mp4"; AInt 10];
     EvClose "/uploads/42/100000000_video.mp4";
     EvPartClose;
     EvDispatch "http://sdk:5279" 42 None
       {| jsonrpc.Method := "publish";
          jsonrpc.Params :=
            {[ "name" := jsonrpc.VString "x";
               "file_path" := jsonrpc.VString "/uploads/42/100000000_video.mp4" ]};
          jsonrpc.ID := 0 |};
     EvWrite (rpcerrors.Serialized "{result}");
     EvRemove "/uploads/42/100000000_video.mp4"] ∧
  files s' = ∅ ∧
  dirs s' = {[ "/uploads"; "/uploads/42" ]}.
Proof. repeat split; vm_compute; reflexivity. Qed.

Lemma Handle_removes_saved_file_witness :
  let W := sample.world in
  let r := sample.upload "t42" sample.payload in
  let f := {| Name := "/uploads/42/100000000_video.mp4" |} in
  let s1 := (run (saveFile W sample.handler r 42) sample.empty_disk).2 in
  ∃ mid tail,
    exit_path W r sample.user42 f mid ∧
    trace (run (Handle W sample.handler r) sample.empty_disk).2
    = trace s1 ++ mid ++ EvRemove (Name f) :: tail ∧
    is_Some (files s1 !! Name f) ∧
    match Remove_fault W (Name f) with
    | None =>
        tail = [] ∧
        files (run (Handle W sample.handler r) sample.empty_disk).2 !! Name f = None
    | Some err => tail = [EvSentry err [("file_path", AString (Name f))]]
    end.
Proof.
  intros W r f s1.
  apply (Handle_removes_saved_file W sample.handler r sample.empty_disk
           sample.user42 f s1).
  - reflexivity.
  - discriminate.
  - vm_compute. reflexivity.
Defined.

(** C1, as stated, fails: where the removal of the file is refused, the
    upload is saved, the request is answered, and the scratch file is still
    there, content and all, when [Handle] has returned. *)
Lemma Handle_removal_refused :
  let W := sample.world_remove_refused in
  let r := sample.upload "t42" sample.payload in
  (run (saveFile W sample.handler r 42) sample.empty_disk).1
  = (Some {| Name := "/uploads/42/100000000_video.mp4" |}, None) ∧
  files (run (Handle W sample.handler r) sample.empty_disk).2
    !! "/uploads/42/100000000_video.mp4" = Some "0123456789".
Proof. split; vm_compute; reflexivity. Qed.

Lemma dispatch_carries_saved_path_witness :
  let W := sample.world in
  let r := sample.upload "t42" sample.payload in
  let req := with_file_path "/uploads/42/100000000_video.mp4" sample.publish_request in
  ∃ user f s1 client_req,
    auth_FromRequest W r = (Some user, None) ∧
    "http://sdk:5279" = auth.SDKAddress user ∧ 42 = models.ID user ∧
    run (saveFile W sample.handler r (models.ID user)) sample.empty_disk
    = ((Some f, None), s1) ∧
    json_Unmarshal W (http.FormValue r jsonRPCFieldName) = inl client_req ∧
    length (query.preflightHooks
              (getCaller "http://sdk:5279" (Name f) 42 None)) = 1%nat ∧
    jsonrpc.Params req
    = <[fileNameParam := jsonrpc.VString (Name f)]> (jsonrpc.Params client_req) ∧
    jsonrpc.Params req !! "file_path" = Some (jsonrpc.VString (Name f)).
Proof.
  intros W r req.
  apply (dispatch_carries_saved_path W sample.handler r sample.empty_disk
           "http://sdk:5279" 42 None req).
  apply list_elem_of_lookup. exists 7%nat. vm_compute. reflexivity.
Defined.



Lemma Handle_without_backend_witness :
  let W := sample.world in
  let r := sample.upload "t7" sample.payload in
  let s' := (run (Handle W sample.handler r) sample.empty_disk).2 in
  events_of sample.empty_disk s'
  = [EvWrite (rpcerrors.InternalErrorJSON
                (Err "user does not have sdk address assigned"));
     EvLog [] Error "user %d does not have sdk address assigned" [AInt 7]] ∧
  (∃ body, bodies (events_of sample.empty_disk s') = [body] ∧
           rpcerrors.internal_error_shape body) ∧
  dirs s' = dirs sample.empty_disk ∧
  files s' = files sample.empty_disk.
Proof.
  intros W r s'.
  apply (Handle_without_backend W sample.handler r sample.empty_disk
           sample.user_without_sdk); reflexivity.
Defined.

Lemma createFile_distinct_while_first_exists_witness :
  let W := sample.world in
  let f1 := {| Name := "/uploads/42/100000000_video.mp4" |} in
  let s1 := (run (createFile W sample.handler 42 "video.mp4") sample.empty_disk).2 in
  is_Some (files s1 !! Name f1) ∧
  ∀ s' f2 s2,
    is_Some (files s' !! Name f1) →
    run (createFile W sample.handler 42 "video.mp4") s' = ((Some f2, None), s2) →
    Name f2 ≠ Name f1.
Proof.
  intros W f1 s1.
  apply (createFile_distinct_while_first_exists W sample.handler 42 "video.mp4"
           sample.empty_disk f1 s1).
  vm_compute. reflexivity.
Defined.

(** C9, as stated, fails: when the runtime draws the same random string
    again, a second [createFile] for the same principal and file name,
    started after the first file was removed, succeeds with the very same
    path. *)
Lemma createFile_same_path_after_removal :
  let W := sample.world_repeating_random in
  let '(res1, s1) := run (createFile W sample.handler 42 "video.mp4") sample.empty_disk in
  let '(removed, s1') := os_Remove W "/uploads/42/123456789_video.mp4" s1 in
  let '(res2, _) := run (createFile W sample.handler 42 "video.mp4") s1' in
  res1 = (Some {| Name := "/uploads/42/123456789_video.mp4" |}, None) ∧
  removed = None ∧
  res2 = (Some {| Name := "/uploads/42/123456789_video.mp4" |}, None).
Proof. vm_compute. done. Qed.

(** C3: the code at a failing input.  The disk fills up after three bytes
    of the upload: [saveFile] fails once the scratch file is created,
    [Handle] answers with the internal-error body and returns without any
    call of [os.Remove], and the file stays behind with the three bytes. *)
Theorem Handle_leaves_partial_file :
  let W := sample.world_disk_full in
  let r := sample.upload "t42" sample.payload in
  let s' := (run (Handle W sample.handler r) sample.empty_disk).2 in
  (run (saveFile W sample.handler r 42) sample.empty_disk).1
  = (None, Some (Err "no space left on device")) ∧
  trace s'
  = [EvMkdirAll "/uploads/42";
     EvOpenFile "/uploads/42/100000000_video.mp4";
     EvLog [("user_id", AInt 42)] Info "processing uploaded file %v"
       [AString "video.mp4"];
     EvCopy "/uploads/42/100000000_video.mp4";
     EvPartClose;
     EvLog [] Error "%v" [AError (Err "no space left on device")];
     EvSentry (Err "no space left on device") [];
     EvWrite (rpcerrors.InternalErrorJSON (Err "no space left on device"))] ∧
  files s' !! "/uploads/42/100000000_video.mp4" = Some "012".
Proof. repeat split; vm_compute; reflexivity. Qed.

(** C8: the code at a failing input.  For the file name ["a*b"] the
    pattern handed to [ioutil.TempFile] is ["*_a*b"]; the random string
    takes the place of the last star, the one of the file name, and the
    file is created as ["*_a<random>b"]: its name is not a random prefix
    followed by ["_a*b"]. *)
Theorem createFile_star_in_filename :
  (run (createFile sample.world sample.handler 42 "a*b") sample.empty_disk).1
  = (Some {| Name := "/uploads/42/*_a100000000b" |}, None) ∧
  path.Join ["/uploads"; pretty 42] = "/uploads/42" ∧
  ∀ randomPrefix : string,
    "/uploads/42/*_a100000000b"
    ≠ "/uploads/42" +:+ "/" +:+ randomPrefix +:+ "_" +:+ "a*b".
Proof.
  split; [vm_compute; reflexivity|]. split; [vm_compute; reflexivity|].
  intros X H. cbv beta iota delta [String.append] in H. injection H as H.
  repeat (destruct X as [|? X]; cbv beta iota delta [String.append] in H;
          [discriminate H | injection H as _ H]).
  destruct X; discriminate H.
Qed.

(** * Further properties *)

(** ** Paths and patterns *)

Lemma clean_go_nonempty root out elems :
  Forall (λ c, c ≠ "") out → Forall (λ c, c ≠ "") (path.clean_go root out elems).
Proof.
  revert out. induction elems as [|c cs IH]; intros out Hout; simpl.
  { by apply Forall_reverse. }
  destruct (decide (c = "" ∨ c = ".")) as [|Hc]; [by apply IH|].
  destruct (decide (c = "..")) as [->|].
  - destruct out as [|top out'].
    + destruct root; apply IH; by repeat constructor.
    + destruct (decide (top = "..")); apply IH.
      * by constructor.
      * by inversion Hout.
  - apply IH. constructor; [|done]. intros ->. apply Hc. by left.
Qed.

Lemma join_nonempty elems :
  elems ≠ [] → Forall (λ c, c ≠ "") elems → path.join elems ≠ "".
Proof.
  intros Hne Hall. destruct elems as [|x xs]; [done|].
  inversion Hall as [|? ? Hx _]; subst.
  destruct x as [|a x]; [done|].
  destruct xs; simpl; [done|].
  cbv beta iota delta [String.append]. discriminate.
Qed.

Lemma Clean_nonempty p : path.Clean p ≠ "".
Proof.
  unfold path.Clean. destruct (path.rooted p).
  - cbv beta iota delta [String.append]. discriminate.
  - pose proof (clean_go_nonempty false [] (path.split p) (Forall_nil_2 _)) as Hall.
    destruct (path.clean_go false [] (path.split p)) as [|x xs] eqn:E; [done|].
    by apply join_nonempty.
Qed.

(** [path.Join] gives the empty string only when it is given nothing but
    empty elements. *)
Lemma Join_nonempty elems e : e ∈ elems → e ≠ "" → path.Join elems ≠ "".
Proof.
  intros Hin Hne. unfold path.Join.
  destruct (filter (λ e, e ≠ "") elems) as [|x xs] eqn:E.
  - assert (e ∈ filter (λ e, e ≠ "") elems) as Hf by (by apply list_elem_of_filter).
    rewrite E in Hf. by apply elem_of_nil in Hf.
  - apply Clean_nonempty.
Qed.

Lemma pretty_N_go_length x s :
  (String.length s ≤ String.length (pretty_N_go x s))%nat.
Proof.
  revert s. induction (N.lt_wf_0 x) as [x _ IH]; intros s.
  assert (x = 0 ∨ 0 < x)%N as [->|?] by lia; [by rewrite pretty_N_go_0|].
  rewrite pretty_N_go_step by done.
  etrans; [|by eapply IH, N.div_lt]. simpl; lia.
Qed.

(** The decimal rendering of an integer is never empty. *)
Lemma pretty_Z_nonempty (x : Z) : pretty x ≠ "".
Proof.
  destruct x as [|p|p]; [done| |done].
  unfold pretty, pretty_Z, pretty, pretty_positive, pretty, pretty_N.
  destruct (decide _) as [|_]; [done|].
  rewrite pretty_N_go_step by lia. intros Hempty.
  pose proof (pretty_N_go_length (N.pos p `div` 10)
                (String (pretty_N_char (N.pos p `mod` 10)) "")) as Hlen.
  rewrite Hempty in Hlen. simpl in Hlen. lia.
Qed.

Lemma split_last_star_none s : has_star s = false → split_last_star s = None.
Proof.
  induction s as [|a s IH]; simpl; [done|].
  intros [Ha Hs]%orb_false_iff. rewrite (IH Hs).
  apply bool_decide_eq_false in Ha. by destruct (decide _).
Qed.

(** For a file name without a star, the pattern of [createFile] splits
    into an empty prefix and the underscore and the name as suffix. *)
Lemma prefixAndSuffix_of_pattern orig :
  has_star orig = false →
  prefixAndSuffix ("*_" +:+ orig) = ("", "_" +:+ orig).
Proof.
  intros Hs. unfold prefixAndSuffix.
  change ("*_" +:+ orig) with (String "*" (String "_" orig)).
  change ("_" +:+ orig) with (String "_" orig).
  simpl. by rewrite (split_last_star_none orig Hs).
Qed.

(** ** More on the runtime *)

Section runtime_more.
Context (W : World).

Lemma mkdirs_dirs ds s :
  dirs s ⊆ dirs (mkdirs ds s).2 ∧
  ((mkdirs ds s).1 = None → Forall (λ d, d ∈ dirs (mkdirs ds s).2) ds).
Proof.
  revert s. induction ds as [|d ds IH]; intros s; simpl; [done|].
  destruct (files s !! d); simpl; [done|].
  destruct (IH (add_dir d s)) as [Hsub Hall]. simpl in Hsub. split.
  - etrans; [|exact Hsub]. apply union_subseteq_r.
  - intros Hok. constructor; [|by apply Hall].
    apply Hsub, elem_of_union_l. by apply elem_of_singleton.
Qed.

Lemma os_MkdirAll_dirs p s :
  dirs s ⊆ dirs (os_MkdirAll W p s).2 ∧
  ((os_MkdirAll W p s).1 = None →
   Forall (λ d, d ∈ dirs (os_MkdirAll W p s).2) (path.ancestors p)).
Proof.
  unfold os_MkdirAll. destruct (MkdirAll_fault W p); simpl; [done|].
  apply (mkdirs_dirs (path.ancestors p) (emit (EvMkdirAll p) s)).
Qed.

Lemma os_OpenFile_excl_ok name s f s' :
  os_OpenFile_excl W name s = ((Some f, None), s') →
  Name f = name ∧ dir_exists (path.Dir name) s' ∧ name ∉ dirs s'.
Proof.
  unfold os_OpenFile_excl.
  destruct (decide _) as [|Hfree]; [discriminate|].
  destruct (OpenFile_fault W name); [discriminate|].
  destruct (decide _) as [Hdir|]; [|discriminate].
  intros [= <- <-]. simpl in *. repeat split; [done|]. tauto.
Qed.

(** A name that [TempFile] returns is [dir/prefix<random>suffix] for one of
    the runtime's random strings; its directory exists, every call the loop
    made was an exclusive create, and the directories are as before. *)
Lemma TempFile_loop_name n dir prefix suffix s f s' :
  TempFile_loop W n dir prefix suffix s = ((Some f, None), s') →
  (∃ k, Name f = path.Join [dir; prefix +:+ nextRandom W k +:+ suffix]) ∧
  dir_exists (path.Dir (Name f)) s' ∧ (Name f ∉ dirs s') ∧ dirs s' = dirs s.
Proof.
  revert s. induction n as [|n IH]; intros s; simpl; [discriminate|].
  set (name := path.Join _).
  pose proof (os_OpenFile_excl_spec W name (next_rng s)) as Hspec.
  destruct (os_OpenFile_excl W name (next_rng s)) as [res s1] eqn:Hopen.
  destruct Hspec as (_ & Hd & _ & [(f' & -> & _)|(err & -> & _)]).
  - intros [= <- <-].
    destruct (os_OpenFile_excl_ok name _ f' s1 Hopen) as (Hn & Hex & Hnd).
    rewrite Hn. repeat split; try done. by exists (rng s).
  - destruct err; try discriminate.
    intros Hloop. destruct (IH s1 Hloop) as (Hk & Hex & Hnd & Hd').
    repeat split; try done. by rewrite Hd'.
Qed.

Lemma TempFile_loop_opens n dir prefix suffix s :
  ∃ opened,
    trace (TempFile_loop W n dir prefix suffix s).2
    = trace s ++ map EvOpenFile opened.
Proof.
  revert s. induction n as [|n IH]; intros s; simpl.
  { exists []. simpl. by rewrite app_nil_r. }
  set (name := path.Join _).
  pose proof (os_OpenFile_excl_spec W name (next_rng s)) as Hspec.
  destruct (os_OpenFile_excl W name (next_rng s)) as [res s1].
  destruct Hspec as (Ht & _).
  assert (∃ opened, trace s1 = trace s ++ map EvOpenFile opened) as Hone
    by (by exists [name]).
  destruct res as [fo [err|]]; [|done].
  destruct err; try done.
  destruct (IH s1) as (opened & Ho). exists (name :: opened).
  rewrite Ho, Ht. simpl. by rewrite <- app_assoc.
Qed.

End runtime_more.

(** ** More on [createFile] and [saveFile] *)

Section upload_more.
Context (W : World) (h : Handler).

Lemma user_dir_nonempty (userID : Z) : path.Join [UploadPath h; pretty userID] ≠ "".
Proof.
  apply (Join_nonempty _ (pretty userID)).
  - apply elem_of_cons. right. by apply list_elem_of_singleton.
  - apply pretty_Z_nonempty.
Qed.

(** Every run of [createFile], in full: its calls, and what a success
    leaves. *)
Lemma createFile_detail (userID : Z) orig s :
  let dir := path.Join [UploadPath h; pretty userID] in
  let pattern := "*_" +:+ orig in
  let '(res, s') := run (createFile W h userID orig) s in
  dirs s ⊆ dirs s' ∧
  (∃ opened, trace s' = trace s ++ EvMkdirAll dir :: map EvOpenFile opened) ∧
  ((∃ err, res = (None, Some err) ∧ files s' = files s ∧
           (is_Some (os_MkdirAll W dir s).1 →
            (os_MkdirAll W dir s).1 = Some err ∧
            trace s' = trace s ++ [EvMkdirAll dir])) ∨
   (∃ f k, res = (Some f, None) ∧
           (os_MkdirAll W dir s).1 = None ∧
           has_separator pattern = false ∧
           Name f = path.Join [dir; (prefixAndSuffix pattern).1
                                      +:+ nextRandom W k
                                      +:+ (prefixAndSuffix pattern).2] ∧
           Forall (λ d, d ∈ dirs s') (path.ancestors dir) ∧
           dir_exists (path.Dir (Name f)) s' ∧ (Name f ∉ dirs s') ∧
           files s !! Name f = None ∧
           files s' = <[Name f := ""]> (files s))).
Proof.
  intros dir pattern. unfold createFile. fold dir. fold pattern.
  run_body. fn_steps.
  destruct (os_MkdirAll_frame W dir s) as (Hf & Ht).
  destruct (os_MkdirAll_dirs W dir s) as (Hsub & Hanc).
  destruct (os_MkdirAll W dir s) as [[err|] s1]; cbn [fst snd] in *; fn_steps.
  { simpl. split; [done|]. split; [by exists []|]. left. by exists err. }
  specialize (Hanc eq_refl).
  unfold ioutil_TempFile.
  destruct (decide (dir = "")) as [Hempty|_];
    [by destruct (user_dir_nonempty userID)|].
  destruct (has_separator pattern) eqn:Hsep.
  { simpl. split; [done|]. split; [by exists []|]. left. eexists.
    repeat split; try done; by destruct H. }
  destruct (prefixAndSuffix pattern) as [prefix suffix] eqn:Hps.
  pose proof (TempFile_loop_spec W TempFile_tries dir prefix suffix s1) as Hspec.
  destruct (TempFile_loop_opens W TempFile_tries dir prefix suffix s1)
    as (opened & Hopened).
  destruct (TempFile_loop W TempFile_tries dir prefix suffix s1)
    as [res s2] eqn:Hloop.
  cbn [fst snd] in *. simpl.
  destruct Hspec as (_ & Hd & Hres).
  split; [by rewrite Hd|].
  split; [exists opened; by rewrite Hopened, Ht, <- app_assoc|].
  destruct Hres as [(f & -> & Hfree & Hfiles)|(err & -> & Hfiles)].
  - right. destruct (TempFile_loop_name W _ _ _ _ _ _ _ Hloop)
      as ((k & Hname) & Hex & Hnd & _).
    exists f, k. simpl. rewrite Hd, <- Hf. repeat split; try done.
    by rewrite <- Hd.
  - left. exists err. rewrite <- Hf. repeat split; try done; by destruct H.
Qed.

Lemma saved_state r userID s res s1 s2 :
  saved W h r userID s res s1 → s1 = s2 → saved W h r userID s res s2.
Proof. by intros ? <-. Qed.

(** Every run of [saveFile] is one of the five cases of [saved]. *)
Lemma saveFile_saved r userID s :
  saved W h r userID s (run (saveFile W h r userID) s).1
    (run (saveFile W h r userID) s).2.
Proof.
  unfold saveFile.
  destruct (http.FormFile r fileFieldName) as [[[file|] [hd|]] [e|]] eqn:HF;
    try (by apply no_part; rewrite HF).
  2-4: exfalso; revert HF; unfold http.FormFile; repeat case_match; congruence.
  assert (file = http.Content hd) as ->.
  { revert HF. unfold http.FormFile. repeat case_match; congruence. }
  run_body. fn_steps.
  pose proof (createFile_spec W h userID (http.Filename hd) s) as Hc.
  destruct (run _ s) as [[f err] s1] eqn:Hcreate. cbn [fst snd].
  destruct Hc as (_ & [(f' & [= -> ->] & _)|(e & [= -> ->] & _)]); fn_steps.
  2:{ cbn [finish run_deferred foldl fst snd]. run_body. fn_steps.
      cbn [finish run_deferred foldl fst snd]. eapply create_failed; eassumption. }
  unfold io_Copy. cbn [fst snd].
  destruct (Copy_fault W (Name f')) as [[n err]|] eqn:Hcopy;
    cbn [fst snd]; fn_steps.
  { cbn [finish run_deferred foldl fst snd]. run_body. fn_steps.
    cbn [finish run_deferred foldl fst snd].
    eapply saved_state; [eapply copy_failed; eassumption|].
    unfold emit_all, emit, set_files. simpl. by rewrite <- !app_assoc. }
  unfold File_Close. cbn [fst snd].
  destruct (Close_fault W (Name f')) as [err|] eqn:Hclose; fn_steps;
    cbn [finish run_deferred foldl fst snd]; run_body; fn_steps;
    cbn [finish run_deferred foldl fst snd].
  - eapply saved_state; [eapply close_failed; eassumption|].
    unfold emit_all, emit, set_files. simpl. by rewrite <- !app_assoc.
  - eapply saved_state; [eapply save_ok; eassumption|].
    unfold emit_all, emit, set_files. simpl. by rewrite <- !app_assoc.
Qed.

End upload_more.

(** ** What [createFile] guarantees *)

Section createFile_properties.
Context (W : World) (h : Handler).

(** X1.  A successful [createFile] never reuses a name: the file it
    returns did not exist and is not a directory; it is empty; every other
    file is as it was; it lies in a directory that exists; the directory
    of the principal and the directories above it exist; and no directory
    is lost. *)
Theorem createFile_fresh_empty_file (userID : Z) (orig : string)
    (s : St) (f : File) (s' : St) :
  run (createFile W h userID orig) s = ((Some f, None), s') →
  files s !! Name f = None ∧ (Name f ∉ dirs s') ∧
  files s' !! Name f = Some "" ∧
  (∀ p, p ≠ Name f → files s' !! p = files s !! p) ∧
  dir_exists (path.Dir (Name f)) s' ∧
  Forall (λ d, d ∈ dirs s')
    (path.ancestors (path.Join [UploadPath h; pretty userID])) ∧
  dirs s ⊆ dirs s'.
Proof.
  intros Hrun. pose proof (createFile_detail W h userID orig s) as Hd.
  cbv zeta in Hd. rewrite Hrun in Hd.
  destruct Hd as (Hsub & _ & [(err & [=] & _)|(f' & k & [= <-] & _ & _ & _ & Hanc
                    & Hex & Hnd & Hfree & Hfiles)]).
  repeat split; try done.
  - rewrite Hfiles. apply lookup_insert_eq.
  - intros p Hp. rewrite Hfiles. by apply lookup_insert_ne.
Qed.

(** X2.  For a file name without a star, a successful [createFile] gives
    the documented path: the upload root joined with the principal's
    number, then one of the runtime's random strings, an underscore and the
    file name; an empty upload root does not send the file to the system's
    temporary directory. *)
Theorem createFile_name_without_star (userID : Z) (orig : string)
    (s : St) (f : File) (s' : St) :
  has_star orig = false →
  run (createFile W h userID orig) s = ((Some f, None), s') →
  ∃ k, Name f = path.Join [path.Join [UploadPath h; pretty userID];
                           nextRandom W k +:+ "_" +:+ orig].
Proof.
  intros Hstar Hrun. pose proof (createFile_detail W h userID orig s) as Hd.
  cbv zeta in Hd. rewrite Hrun in Hd.
  destruct Hd as (_ & _ & [(err & [=] & _)|(f' & k & [= <-] & _ & Hsep & Hname & _)]).
  rewrite (prefixAndSuffix_of_pattern orig Hstar) in Hname.
  by exists k.
Qed.

Lemma mkdirs_blocked ds s d :
  d ∈ ds → is_Some (files s !! d) → is_Some (mkdirs ds s).1.
Proof.
  revert s. induction ds as [|d' ds IH]; intros s Hin Hfile.
  { by apply elem_of_nil in Hin. }
  simpl. destruct (files s !! d') eqn:Hd'; simpl; [by eexists|].
  apply elem_of_cons in Hin as [->|Hin].
  - rewrite Hd' in Hfile. by destruct Hfile.
  - by apply IH.
Qed.

(** X3.  When [os.MkdirAll] fails, be it refused or because a file is in
    the way of the principal's directory, [createFile] returns a nil handle
    and an error without asking [ioutil.TempFile] for a file: its only call
    is the [MkdirAll], and the files are as they were. *)
Theorem createFile_MkdirAll_failure (userID : Z) (orig : string) (s : St) :
  let dir := path.Join [UploadPath h; pretty userID] in
  is_Some (MkdirAll_fault W dir) ∨
  (∃ d, d ∈ path.ancestors dir ∧ is_Some (files s !! d)) →
  (∃ err, (run (createFile W h userID orig) s).1 = (None, Some err)) ∧
  events_of s (run (createFile W h userID orig) s).2 = [EvMkdirAll dir] ∧
  files (run (createFile W h userID orig) s).2 = files s.
Proof.
  intros dir Hfail.
  assert (is_Some (os_MkdirAll W dir s).1) as [err Herr].
  { unfold os_MkdirAll. destruct Hfail as [[e He]|(d & Hin & Hfile)].
    - rewrite He. by eexists.
    - destruct (MkdirAll_fault W dir); [by eexists|].
      by apply (mkdirs_blocked _ _ d). }
  pose proof (createFile_detail W h userID orig s) as Hd. cbv zeta in Hd.
  fold dir in Hd. destruct (run (createFile W h userID orig) s) as [res s'].
  destruct Hd as (_ & _ & [(e & -> & Hfiles & Htrace)|(f & k & _ & Hok & _)]).
  - destruct Htrace as [_ Htrace]; [by eexists|].
    simpl. split; [by eexists|]. split; [by apply events_of_app|done].
  - rewrite Herr in Hok. discriminate Hok.
Qed.

End createFile_properties.

(** ** What [saveFile] guarantees *)

Lemma FormFile_ok r key content hd :
  http.FormFile r key = (Some content, Some hd, None) →
  content = http.Content hd ∧
  ∃ File rest, http.MultipartForm r = http.Parsed File ∧
               File !! key = Some (hd :: rest).
Proof.
  unfold http.FormFile.
  destruct (http.MultipartForm r) as [|msg|File]; try discriminate.
  destruct (File !! key) as [[|fh rest]|] eqn:HF; try discriminate.
  destruct (http.OpenErr fh); [discriminate|].
  intros [= <- <-]. split; [done|]. by exists File, rest.
Qed.

Lemma dispatches_app evs1 evs2 :
  dispatches (evs1 ++ evs2) = dispatches evs1 ++ dispatches evs2.
Proof. apply omap_app. Qed.

Lemma removals_app evs1 evs2 :
  removals (evs1 ++ evs2) = removals evs1 ++ removals evs2.
Proof. apply omap_app. Qed.

Lemma upload_events_dispatches evs : Forall upload_event evs → dispatches evs = [].
Proof.
  induction 1 as [|e evs He _ IH]; [done|].
  unfold dispatches in *. simpl. by destruct e.
Qed.

Lemma upload_events_removals evs : Forall upload_event evs → removals evs = [].
Proof.
  induction 1 as [|e evs He _ IH]; [done|].
  unfold removals in *. simpl. by destruct e.
Qed.

Section saveFile_properties.
Context (W : World) (h : Handler).

Lemma createFile_outcome (userID : Z) orig s :
  dirs s ⊆ dirs (run (createFile W h userID orig) s).2 ∧
  ((∃ err, (run (createFile W h userID orig) s).1 = (None, Some err) ∧
           files (run (createFile W h userID orig) s).2 = files s) ∨
   (∃ f, (run (createFile W h userID orig) s).1 = (Some f, None) ∧
         files s !! Name f = None ∧
         files (run (createFile W h userID orig) s).2
         = <[Name f := ""]> (files s))).
Proof.
  pose proof (createFile_detail W h userID orig s) as Hd. cbv zeta in Hd.
  destruct (run (createFile W h userID orig) s) as [res s1].
  destruct Hd as (Hsub & _ & [(err & -> & Hfiles & _)
                             |(f & k & -> & _ & _ & _ & _ & _ & _ & Hfree & Hfiles)]).
  - split; [done|]. left. by exists err.
  - split; [done|]. right. by exists f.
Qed.

(** A successful [saveFile], step by step. *)
Lemma saveFile_ok_inv r userID s f s' :
  run (saveFile W h r userID) s = ((Some f, None), s') →
  ∃ hd s1,
    http.FormFile r fileFieldName = (Some (http.Content hd), Some hd, None) ∧
    run (createFile W h userID (http.Filename hd)) s = ((Some f, None), s1) ∧
    Copy_fault W (Name f) = None ∧ Close_fault W (Name f) = None ∧
    files s !! Name f = None ∧
    files s' = <[Name f := http.Content hd]> (files s) ∧
    dirs s' = dirs s1 ∧
    trace s'
    = trace s1 ++ [log_processing userID hd; EvCopy (Name f);
                   log_saved userID f (Z.of_nat (String.length (http.Content hd)));
                   EvClose (Name f); EvPartClose].
Proof.
  intros Hrun. pose proof (saveFile_saved W h r userID s) as Hs.
  rewrite Hrun in Hs. simpl in Hs.
  inversion Hs as [| | | |hd f' s1 HF Hcreate Hcopy Hclose]; subst.
  destruct (createFile_outcome userID (http.Filename hd) s) as (_ & Hc).
  rewrite Hcreate in Hc. simpl in Hc.
  destruct Hc as [(? & [=] & _)|(f' & [= <-] & Hfree & Hfiles)].
  exists hd, s1. repeat split; try done.
  simpl. rewrite Hfiles. apply insert_insert_eq.
Qed.

(** X4.  When [saveFile] succeeds, the scratch file holds exactly the
    bytes of the first file part under ["file"]; the file is new, and no
    other file has changed. *)
Theorem saveFile_stores_upload (r : http.Request) (userID : Z)
    (s : St) (f : File) (s' : St) :
  run (saveFile W h r userID) s = ((Some f, None), s') →
  ∃ File hd rest,
    http.MultipartForm r = http.Parsed File ∧
    File !! fileFieldName = Some (hd :: rest) ∧
    files s !! Name f = None ∧
    files s' = <[Name f := http.Content hd]> (files s).
Proof.
  intros Hrun.
  destruct (saveFile_ok_inv r userID s f s' Hrun)
    as (hd & s1 & HF & _ & _ & _ & Hfree & Hfiles & _).
  destruct (FormFile_ok _ _ _ _ HF) as (_ & File & rest & HM & Hkey).
  by exists File, hd, rest.
Qed.

(** [saveFile] only adds: the files and directories that were there are
    still there, unchanged. *)
Lemma saveFile_keeps r userID s :
  (∀ p c, files s !! p = Some c →
          files (run (saveFile W h r userID) s).2 !! p = Some c) ∧
  dirs s ⊆ dirs (run (saveFile W h r userID) s).2.
Proof.
  pose proof (saveFile_saved W h r userID s) as Hs.
  destruct (run (saveFile W h r userID) s) as [res s']. simpl in *.
  assert (∀ f content s1 p c,
            files s !! Name f = None →
            files s1 = <[Name f := ""]> (files s) →
            files s !! p = Some c →
            <[Name f := content]> (files s1) !! p = Some c) as Hins.
  { intros f content s1 p c Hfree -> Hp.
    rewrite insert_insert_eq, lookup_insert_ne; [done|]. congruence. }
  destruct Hs as [err HF|hd err s1 HF Hcreate|hd f s1 n err HF Hcreate Hcopy
                 |hd f s1 err HF Hcreate Hcopy Hclose|hd f s1 HF Hcreate Hcopy Hclose];
    [done|..];
    destruct (createFile_outcome userID (http.Filename hd) s) as (Hsub & Hc);
    rewrite Hcreate in Hc, Hsub; simpl in Hc, Hsub;
    destruct Hc as [(? & [= <-] & Hfiles)|(f' & [= <-] & Hfree & Hfiles)];
    simpl; (split; [|done]); intros p c Hp.
  - by rewrite Hfiles.
  - by eapply Hins.
  - by eapply Hins.
  - by eapply Hins.
Qed.

(** X5.  Once the file part is open, [saveFile] closes it on every path,
    as its last act and only once; when the part cannot be opened,
    [saveFile] does nothing at all. *)
Theorem saveFile_closes_part (r : http.Request) (userID : Z) (s : St) :
  match (http.FormFile r fileFieldName).2 with
  | None =>
      ∃ before,
        events_of s (run (saveFile W h r userID) s).2 = before ++ [EvPartClose] ∧
        EvPartClose ∉ before
  | Some _ => (run (saveFile W h r userID) s).2 = s
  end.
Proof.
  pose proof (saveFile_saved W h r userID s) as Hs.
  destruct (run (saveFile W h r userID) s) as [res s']. simpl in *.
  assert (∀ hd fo eo s1,
            run (createFile W h userID (http.Filename hd)) s = ((fo, eo), s1) →
            ∃ opened, trace s1
              = trace s ++ EvMkdirAll (path.Join [UploadPath h; pretty userID])
                             :: map EvOpenFile opened) as Hcreated.
  { intros hd fo eo s1 Hrun.
    pose proof (createFile_detail W h userID (http.Filename hd) s) as Hd.
    cbv zeta in Hd. rewrite Hrun in Hd. by destruct Hd as (_ & Ht & _). }
  assert (∀ opened, EvPartClose ∉ map EvOpenFile opened) as Hopened.
  { intros opened Hin. apply list_elem_of_fmap in Hin as (? & [=] & _). }
  destruct Hs as [err HF|hd err s1 HF Hcreate|hd f s1 n err HF Hcreate Hcopy
                 |hd f s1 err HF Hcreate Hcopy Hclose|hd f s1 HF Hcreate Hcopy Hclose];
    [by rewrite HF|..]; rewrite HF; simpl;
    destruct (Hcreated _ _ _ _ Hcreate) as (opened & Ht).
  - eexists. split.
    + apply events_of_app. simpl. rewrite Ht, <- app_assoc. reflexivity.
    + intros Hin. apply elem_of_cons in Hin as [[=]|Hin]. by apply Hopened in Hin.
  - eexists (_ :: map EvOpenFile opened ++ [_; _]). split.
    + apply events_of_app. simpl. rewrite Ht, <- !app_assoc. simpl.
      reflexivity.
    + intros Hin. apply elem_of_cons in Hin as [[=]|Hin].
      apply elem_of_app in Hin as [Hin|Hin]; [by apply Hopened in Hin|].
      repeat (apply elem_of_cons in Hin as [[=]|Hin]). by apply elem_of_nil in Hin.
  - eexists (_ :: map EvOpenFile opened ++ [_; _; _; _]). split.
    + apply events_of_app. simpl. rewrite Ht, <- !app_assoc. simpl.
      reflexivity.
    + intros Hin. apply elem_of_cons in Hin as [[=]|Hin].
      apply elem_of_app in Hin as [Hin|Hin]; [by apply Hopened in Hin|].
      repeat (apply elem_of_cons in Hin as [[=]|Hin]). by apply elem_of_nil in Hin.
  - eexists (_ :: map EvOpenFile opened ++ [_; _; _; _]). split.
    + apply events_of_app. simpl. rewrite Ht, <- !app_assoc. simpl.
      reflexivity.
    + intros Hin. apply elem_of_cons in Hin as [[=]|Hin].
      apply elem_of_app in Hin as [Hin|Hin]; [by apply Hopened in Hin|].
      repeat (apply elem_of_cons in Hin as [[=]|Hin]). by apply elem_of_nil in Hin.
Qed.

(** X6.  When the copy into the scratch file fails, [saveFile] returns the
    copy's error and no handle; the file stays behind with the bytes
    written so far; and [saveFile] neither closes nor removes it. *)
Theorem saveFile_copy_failure (r : http.Request) (userID : Z) (s : St)
    (hd : http.FileHeader) (f : File) (s1 : St) (n : nat) (err : error) :
  http.FormFile r fileFieldName = (Some (http.Content hd), Some hd, None) →
  run (createFile W h userID (http.Filename hd)) s = ((Some f, None), s1) →
  Copy_fault W (Name f) = Some (n, err) →
  (run (saveFile W h r userID) s).1 = (None, Some err) ∧
  files (run (saveFile W h r userID) s).2 !! Name f
  = Some (String.substring 0 n (http.Content hd)) ∧
  events_of s1 (run (saveFile W h r userID) s).2
  = [log_processing userID hd; EvCopy (Name f); EvPartClose].
Proof.
  intros HF Hcreate Hcopy.
  pose proof (saveFile_saved W h r userID s) as Hs.
  destruct (run (saveFile W h r userID) s) as [res s']. simpl in *.
  destruct Hs as [e HF'|hd' e s1' HF' Hcreate'|hd' f' s1' n' e HF' Hcreate' Hcopy'
                 |hd' f' s1' e HF' Hcreate' Hcopy' Hclose'
                 |hd' f' s1' HF' Hcreate' Hcopy' Hclose'].
  - rewrite HF in HF'. discriminate HF'.
  - rewrite HF in HF'. injection HF' as _ <-. rewrite Hcreate in Hcreate'.
    discriminate Hcreate'.
  - rewrite HF in HF'. injection HF' as _ <-. rewrite Hcreate in Hcreate'.
    injection Hcreate' as <- <-. rewrite Hcopy in Hcopy'. injection Hcopy' as <- <-.
    simpl. split; [done|]. split; [apply lookup_insert_eq|].
    by apply events_of_app.
  - rewrite HF in HF'. injection HF' as _ <-. rewrite Hcreate in Hcreate'.
    injection Hcreate' as <- <-. rewrite Hcopy in Hcopy'. discriminate Hcopy'.
  - rewrite HF in HF'. injection HF' as _ <-. rewrite Hcreate in Hcreate'.
    injection Hcreate' as <- <-. rewrite Hcopy in Hcopy'. discriminate Hcopy'.
Qed.

End saveFile_properties.

(** ** What [Handle] guarantees *)

Section Handle_properties.
Context (W : World) (h : Handler).

Lemma exit_path_counts r user f mid :
  exit_path W r user f mid →
  (∃ body, bodies mid = [body]) ∧ removals mid = [] ∧
  (dispatches mid = [] ∨
   ∃ req, json_Unmarshal W (http.FormValue r jsonRPCFieldName) = inl req ∧
          ∃ rest, mid = EvDispatch (auth.SDKAddress user) (models.ID user)
                          (qCache_of W r) (with_file_path (Name f) req) :: rest ∧
                  dispatches rest = []).
Proof.
  intros [err Hj|req res err Hj Hb|req res b err Hj Hb Hs|req res b Hj Hb Hs];
    (split; [by eexists|]); (split; [done|]);
    [by left|right; exists req; split; [done|]; by eexists..].
Qed.


(** X8.  [Handle] never changes or removes a file that was there before
    the request, and never removes a directory. *)
Theorem Handle_keeps_existing (r : http.Request) (s : St) :
  (∀ p c, files s !! p = Some c →
          files (run (Handle W h r) s).2 !! p = Some c) ∧
  dirs s ⊆ dirs (run (Handle W h r) s).2.
Proof.
  destruct (Handle_handled W h r s) as [_ Hh].
  set (s' := (run (Handle W h r) s).2) in *. clearbody s'.
  destruct Hh as [u e authErr Ha Hg|u Ha Hs|u e s1 Ha Hs Hr|u f s1 mid Ha Hs Hr Hexit];
    [done|done|..].
  - destruct (saveFile_keeps W h r (models.ID u) s) as [Hfiles Hdirs].
    rewrite Hr in Hfiles, Hdirs. done.
  - destruct (saveFile_keeps W h r (models.ID u) s) as [Hfiles Hdirs].
    rewrite Hr in Hfiles, Hdirs. simpl in Hfiles, Hdirs.
    destruct (saveFile_ok_inv W h r _ s f s1 Hr)
      as (hd & s0 & _ & _ & _ & _ & Hfree & Hs1 & _).
    assert (files s1 !! Name f = Some (http.Content hd)) as Hfile
      by (rewrite Hs1; apply lookup_insert_eq).
    destruct (cleanup_after_save W f _ mid s1 Hfile) as (tail & _ & Hd & Hrm).
    split; [|by rewrite Hd].
    intros p c Hp.
    destruct (Remove_fault W (Name f)); destruct Hrm as [_ ->]; [by apply Hfiles|].
    rewrite lookup_delete_ne; [by apply Hfiles|]. congruence.
Qed.

(** X9.  When the upload is saved and its removal goes through, the files
    after [Handle] are exactly the files before it: nothing is left behind,
    whatever the outcome of the call. *)
Theorem Handle_restores_files (r : http.Request) (s : St)
    (user : models.User) (f : File) (s1 : St) :
  auth_FromRequest W r = (Some user, None) →
  auth.SDKAddress user ≠ "" →
  run (saveFile W h r (models.ID user)) s = ((Some f, None), s1) →
  Remove_fault W (Name f) = None →
  files (run (Handle W h r) s).2 = files s.
Proof.
  intros Hauth Hsdk Hsave Hrm.
  destruct (answered_events W h r s user f s1 Hauth Hsdk Hsave)
    as (saving & mid & tail & content & _ & _ & _ & _ & _ & _ & Hfiles).
  rewrite Hrm in Hfiles. destruct Hfiles as [_ ->].
  destruct (saveFile_ok_inv W h r _ s f s1 Hsave)
    as (hd & s0 & _ & _ & _ & _ & Hfree & -> & _).
  rewrite delete_insert_eq. by apply delete_id.
Qed.

(** X10.  A request that fails authentication gets the body of its
    authentication error and nothing else happens: no file system call, no
    log line, no report, no call downstream. *)
Theorem Handle_auth_error (r : http.Request) (s : St)
    (user : option models.User) (err : option error) (authErr : error) :
  auth_FromRequest W r = (user, err) →
  proxy.GetAuthError user err = Some authErr →
  (run (Handle W h r) s).2 = emit (EvWrite (rpcerrors.ErrorToJSON authErr)) s.
Proof.
  intros Hauth Hget.
  destruct (Handle_handled W h r s) as [_ Hh].
  set (s' := (run (Handle W h r) s).2) in *. clearbody s'.
  destruct Hh as [u e authErr' Ha Hg|u Ha Hs|u e s1 Ha Hs Hr|u f s1 mid Ha Hs Hr Hexit];
    rewrite Hauth in Ha; simplify_eq/=.
  reflexivity.
Qed.

(** X11.  When [saveFile] fails, [Handle] logs the error, reports it to
    the error tracker and answers with the internal-error body of that
    error; it sends nothing downstream, removes nothing, and leaves the
    files and directories as [saveFile] left them. *)
Theorem Handle_save_failure (r : http.Request) (s : St)
    (user : models.User) (err : error) (s1 : St) :
  auth_FromRequest W r = (Some user, None) →
  auth.SDKAddress user ≠ "" →
  run (saveFile W h r (models.ID user)) s = ((None, Some err), s1) →
  events_of s1 (run (Handle W h r) s).2
  = [EvLog [] Error "%v" [AError err]; EvSentry err [];
     EvWrite (rpcerrors.InternalErrorJSON err)] ∧
  dispatches (events_of s (run (Handle W h r) s).2) = [] ∧
  removals (events_of s (run (Handle W h r) s).2) = [] ∧
  files (run (Handle W h r) s).2 = files s1 ∧
  dirs (run (Handle W h r) s).2 = dirs s1.
Proof.
  intros Hauth Hsdk Hsave.
  rewrite (Handle_upload_failed W h r s user err s1 Hauth Hsdk Hsave).
  pose proof (saveFile_spec W h r (models.ID user) s) as Hspec.
  rewrite Hsave in Hspec. destruct Hspec as ((saving & Ht & Hup) & _).
  split; [by apply events_of_app|].
  assert (events_of s (emit_all [EvLog [] Error "%v" [AError err]; EvSentry err [];
                                 EvWrite (rpcerrors.InternalErrorJSON err)] s1)
          = saving ++ [EvLog [] Error "%v" [AError err]; EvSentry err [];
                       EvWrite (rpcerrors.InternalErrorJSON err)]) as ->.
  { apply events_of_app. simpl. by rewrite Ht, <- app_assoc. }
  rewrite dispatches_app, removals_app, (upload_events_dispatches saving Hup),
    (upload_events_removals saving Hup). done.
Qed.

(** X12.  A run of [Handle] sends at most one call downstream and calls
    [os.Remove] at most once. *)
Theorem Handle_at_most_once (r : http.Request) (s : St) :
  (length (dispatches (events_of s (run (Handle W h r) s).2)) ≤ 1)%nat ∧
  (length (removals (events_of s (run (Handle W h r) s).2)) ≤ 1)%nat.
Proof.
  destruct (Handle_events W h r s)
    as [(b & He & _)|[(b & ? & ? & ? & ? & u & He & _)
       |[(saving & e & u & s1 & Hup & _ & _ & He)
       |(saving & mid & tail & u & f & s1 & Hup & _ & _ & _ & Hexit & Htail & He)]]];
    rewrite He.
  - simpl. lia.
  - simpl. lia.
  - rewrite dispatches_app, removals_app, (upload_events_dispatches saving Hup),
      (upload_events_removals saving Hup). simpl. lia.
  - destruct (exit_path_counts r u f mid Hexit) as (_ & Hrm & Hd).
    rewrite !dispatches_app, !removals_app, (upload_events_dispatches saving Hup),
      (upload_events_removals saving Hup), Hrm.
    assert (dispatches (EvRemove (Name f) :: tail) = [] ∧
            removals (EvRemove (Name f) :: tail) = [Name f]) as [-> ->]
      by (destruct Htail as [->|(e & extra & ->)]; done).
    destruct Hd as [->|(req & _ & rest & -> & Hrest)]; simpl; [lia|].
    unfold dispatches in *. simpl. rewrite Hrest. simpl. lia.
Qed.


End Handle_properties.

(** ** The hook of [getCaller], and the matcher with the handler *)

(** X14.  The caller built by [getCaller] is bound to the given backend,
    principal and cache; its hooks never end a dispatch, and they change
    nothing of a query but the parameter ["file_path"], which they set to
    the given file name: method, id and all other parameters are the
    client's. *)
Theorem getCaller_rewrites_only_file_path (sdkAddress filename : string)
    (userID : Z) (qCache : option cache.QueryCache) (q : query.Query) :
  let c := getCaller sdkAddress filename userID qCache in
  query.endpoint c = sdkAddress ∧ query.userID c = userID ∧
  query.Cache c = qCache ∧
  ∃ q', query.run_hooks (query.preflightHooks c) q = inl q' ∧
        jsonrpc.Method (query.Request q') = jsonrpc.Method (query.Request q) ∧
        jsonrpc.ID (query.Request q') = jsonrpc.ID (query.Request q) ∧
        query.ParamsAsMap q' !! fileNameParam = Some (jsonrpc.VString filename) ∧
        ∀ k, k ≠ fileNameParam →
             query.ParamsAsMap q' !! k = query.ParamsAsMap q !! k.
Proof.
  intros c. repeat split; try done.
  eexists. split; [reflexivity|]. repeat split; try done.
  - apply lookup_insert_eq.
  - intros k Hk. simpl. unfold query.ParamsAsMap. simpl.
    by apply lookup_insert_ne.
Qed.

Section matcher_and_handler.
Context (W : World) (h : Handler).

(** X15.  The matcher does not turn away what the handler can save: a
    request whose upload [saveFile] saves, and which carries a non-empty
    payload, is one that [CanHandle] accepts. *)
Theorem saveFile_ok_CanHandle (r : http.Request) (userID : Z)
    (s : St) (f : File) (s1 : St) :
  run (saveFile W h r userID) s = ((Some f, None), s1) →
  http.FormValue r jsonRPCFieldName ≠ "" →
  CanHandle r = true.
Proof.
  intros Hsave Hv.
  destruct (saveFile_ok_inv W h r userID s f s1 Hsave) as (hd & s0 & HF & _).
  rewrite CanHandle_unfold, HF. simpl. by apply bool_decide_eq_true.
Qed.

(** X16.  A request with a payload that [CanHandle] turns away has no file
    part, and if [Handle] is given it all the same, nothing is saved and
    nothing is sent: no call goes downstream, no file or directory is made
    or removed. *)
Theorem Handle_unmatched (r : http.Request) (s : St) :
  CanHandle r = false →
  http.FormValue r jsonRPCFieldName ≠ "" →
  ¬ http.has_file_part r fileFieldName ∧
  dispatches (events_of s (run (Handle W h r) s).2) = [] ∧
  removals (events_of s (run (Handle W h r) s).2) = [] ∧
  files (run (Handle W h r) s).2 = files s ∧
  dirs (run (Handle W h r) s).2 = dirs s.
Proof.
  intros Hcan Hv.
  rewrite CanHandle_unfold in Hcan.
  apply andb_false_iff in Hcan as [Hcan|Hcan];
    [|by apply bool_decide_eq_false in Hcan].
  apply negb_false_iff in Hcan.
  assert ((http.FormFile r fileFieldName).2 = Some ErrMissingFile) as Hmiss.
  { destruct ((http.FormFile r fileFieldName).2) as [e|]; [|done].
    simpl in Hcan. by apply bool_decide_eq_true in Hcan as ->. }
  split; [by apply FormFile_missing in Hmiss as [_ ?]|].
  assert (∀ userID, run (saveFile W h r userID) s = ((None, Some ErrMissingFile), s))
    as Hsave by (intros; by apply saveFile_FormFile_error).
  destruct (Handle_handled W h r s) as [_ Hh].
  remember (run (Handle W h r) s).2 as s' eqn:Hs'. clear Hs'.
  destruct Hh as [u e authErr Ha Hg|u Ha Hs|u e s1 Ha Hs Hr|u f s1 mid Ha Hs Hr Hexit].
  - by erewrite events_of_app by done.
  - by erewrite events_of_app by done.
  - rewrite Hsave in Hr. injection Hr as <- <-.
    by erewrite events_of_app by done.
  - rewrite Hsave in Hr. discriminate Hr.
Qed.

End matcher_and_handler.

(** ** The further properties at concrete requests *)

Lemma createFile_fresh_empty_file_witness :
  let W := sample.world in
  let f := {| Name := "/uploads/42/100000000_video.mp4" |} in
  let s := sample.empty_disk in
  let s' := (run (createFile W sample.handler 42 "video.mp4") s).2 in
  files s !! Name f = None ∧ (Name f ∉ dirs s') ∧
  files s' !! Name f = Some "" ∧
  (∀ p, p ≠ Name f → files s' !! p = files s !! p) ∧
  dir_exists (path.Dir (Name f)) s' ∧
  Forall (λ d, d ∈ dirs s')
    (path.ancestors (path.Join [UploadPath sample.handler; pretty 42])) ∧
  dirs s ⊆ dirs s'.
Proof.
  intros W f s s'.
  apply (createFile_fresh_empty_file W sample.handler 42 "video.mp4" s f s').
  vm_compute. reflexivity.
Defined.

Lemma createFile_name_without_star_witness :
  let W := sample.world in
  let f := {| Name := "/uploads/42/100000000_video.mp4" |} in
  ∃ k, Name f = path.Join [path.Join [UploadPath sample.handler; pretty 42];
                           nextRandom W k +:+ "_" +:+ "video.mp4"].
Proof.
  intros W f.
  apply (createFile_name_without_star W sample.handler 42 "video.mp4"
           sample.empty_disk f
           (run (createFile W sample.handler 42 "video.mp4") sample.empty_disk).2).
  - reflexivity.
  - vm_compute. reflexivity.
Defined.

Lemma createFile_MkdirAll_failure_witness :
  let W := sample.world in
  let s := {| dirs := ∅; files := {[ "/uploads" := "a file" ]};
              rng := 0; trace := [] |} in
  let dir := path.Join [UploadPath sample.handler; pretty 42] in
  (∃ err, (run (createFile W sample.handler 42 "video.mp4") s).1 = (None, Some err)) ∧
  events_of s (run (createFile W sample.handler 42 "video.mp4") s).2
  = [EvMkdirAll dir] ∧
  files (run (createFile W sample.handler 42 "video.mp4") s).2 = files s.
Proof.
  intros W s dir.
  apply (createFile_MkdirAll_failure W sample.handler 42 "video.mp4" s).
  right. exists "/uploads". split.
  - apply list_elem_of_lookup. exists 0%nat. vm_compute. reflexivity.
  - exists "a file". vm_compute. reflexivity.
Defined.

Lemma saveFile_stores_upload_witness :
  let W := sample.world in
  let r := sample.upload "t42" sample.payload in
  let f := {| Name := "/uploads/42/100000000_video.mp4" |} in
  let s := sample.empty_disk in
  let s' := (run (saveFile W sample.handler r 42) s).2 in
  ∃ File hd rest,
    http.MultipartForm r = http.Parsed File ∧
    File !! fileFieldName = Some (hd :: rest) ∧
    files s !! Name f = None ∧
    files s' = <[Name f := http.Content hd]> (files s).
Proof.
  intros W r f s s'.
  apply (saveFile_stores_upload W sample.handler r 42 s f s').
  vm_compute. reflexivity.
Defined.

Lemma saveFile_copy_failure_witness :
  let W := sample.world_disk_full in
  let r := sample.upload "t42" sample.payload in
  let f := {| Name := "/uploads/42/100000000_video.mp4" |} in
  let s := sample.empty_disk in
  let s1 := (run (createFile W sample.handler 42 "video.mp4") s).2 in
  (run (saveFile W sample.handler r 42) s).1
  = (None, Some (Err "no space left on device")) ∧
  files (run (saveFile W sample.handler r 42) s).2 !! Name f
  = Some (String.substring 0 3 (http.Content sample.video)) ∧
  events_of s1 (run (saveFile W sample.handler r 42) s).2
  = [log_processing 42 sample.video; EvCopy (Name f); EvPartClose].
Proof.
  intros W r f s s1.
  apply (saveFile_copy_failure W sample.handler r 42 s sample.video f s1 3
           (Err "no space left on device")).
  - reflexivity.
  - vm_compute. reflexivity.
  - reflexivity.
Defined.

Lemma Handle_restores_files_witness :
  let W := sample.world in
  let r := sample.upload "t42" sample.payload in
  files (run (Handle W sample.handler r) sample.empty_disk).2
  = files sample.empty_disk.
Proof.
  intros W r.
  apply (Handle_restores_files W sample.handler r sample.empty_disk sample.user42
           {| Name := "/uploads/42/100000000_video.mp4" |}
           (run (saveFile W sample.handler r 42) sample.empty_disk).2).
  - reflexivity.
  - discriminate.
  - vm_compute. reflexivity.
  - reflexivity.
Defined.

Lemma Handle_auth_error_witness :
  let W := sample.world in
  let r := sample.upload "nobody" sample.payload in
  (run (Handle W sample.handler r) sample.empty_disk).2
  = emit (EvWrite (rpcerrors.ErrorToJSON (Err "authentication required")))
      sample.empty_disk.
Proof.
  intros W r.
  apply (Handle_auth_error W sample.handler r sample.empty_disk None
           (Some (Err "authentication required"))); reflexivity.
Defined.

Lemma Handle_save_failure_witness :
  let W := sample.world_disk_full in
  let r := sample.upload "t42" sample.payload in
  let err := Err "no space left on device" in
  let s := sample.empty_disk in
  let s1 := (run (saveFile W sample.handler r 42) s).2 in
  events_of s1 (run (Handle W sample.handler r) s).2
  = [EvLog [] Error "%v" [AError err]; EvSentry err [];
     EvWrite (rpcerrors.InternalErrorJSON err)] ∧
  dispatches (events_of s (run (Handle W sample.handler r) s).2) = [] ∧
  removals (events_of s (run (Handle W sample.handler r) s).2) = [] ∧
  files (run (Handle W sample.handler r) s).2 = files s1 ∧
  dirs (run (Handle W sample.handler r) s).2 = dirs s1.
Proof.
  intros W r err s s1.
  apply (Handle_save_failure W sample.handler r s sample.user42 err s1).
  - reflexivity.
  - discriminate.
  - vm_compute. reflexivity.
Defined.


Lemma saveFile_ok_CanHandle_witness :
  CanHandle (sample.upload "t42" sample.payload) = true.
Proof.
  apply (saveFile_ok_CanHandle sample.world sample.handler
           (sample.upload "t42" sample.payload) 42 sample.empty_disk
           {| Name := "/uploads/42/100000000_video.mp4" |}
           (run (saveFile sample.world sample.handler
                   (sample.upload "t42" sample.payload) 42) sample.empty_disk).2).
  - vm_compute. reflexivity.
  - vm_compute. discriminate.
Defined.

Lemma Handle_unmatched_witness :
  let W := sample.world in
  let r := sample.without_file "t42" sample.payload in
  let s := sample.empty_disk in
  ¬ http.has_file_part r fileFieldName ∧
  dispatches (events_of s (run (Handle W sample.handler r) s).2) = [] ∧
  removals (events_of s (run (Handle W sample.handler r) s).2) = [] ∧
  files (run (Handle W sample.handler r) s).2 = files s ∧
  dirs (run (Handle W sample.handler r) s).2 = dirs s.
Proof.
  intros W r s.
  apply (Handle_unmatched W sample.handler r s).
  - reflexivity.
  - vm_compute. discriminate.
Defined.
